(** * The SSR front server of the blog (apps/web/server.ts)

    A shallow embedding of the page render cache, the compression
    negotiation, the static file server, the theme registry and the
    administrative endpoints of [apps/web/server.ts], followed by the
    properties the design document states about them.

    Conventions.
    - Header values, urls and paths are [string]s of Latin-1 code units,
      which is how Node hands header bytes to the handler.
    - [Date.now()] is an integer number of milliseconds, a [Z]; every
      function that reads the clock takes the reading as an argument.
    - The module-level maps ([pageCache], [fileCache]) are [gmap]s held in
      an explicit server state that each handler receives and returns. The
      loops over [pageCache.entries()] run over [map_to_list]; a [Map]
      iterates in insertion order, which none of the loops depends on.
    - zlib, the md5 digest, [mime.lookup], [JSON.parse] and [path.join] are
      collaborators outside the file, the fields of the interfaces [Zlib]
      and [Platform]; what the renderer and the settings backend answer for
      one request is an argument of the handler that calls them. *)

From Stdlib Require Import ZArith QArith Qcanon String Ascii List Bool.
From stdpp Require Import gmap strings list fin_maps.

Local Set Warnings "-register-all".
Local Open Scope Z_scope.
Local Open Scope string_scope.

(** ** JavaScript string methods *)

Module JsString.

(** [s.startsWith(p)] *)
Definition startsWith (p s : string) : bool := String.prefix p s.

(** [s.includes(needle)]: [needle] occurs at some offset of [s]. *)
Fixpoint includes (needle s : string) : bool :=
  if String.prefix needle s then true
  else match s with
       | EmptyString => false
       | String _ rest => includes needle rest
       end.

(** Lower-casing of one Latin-1 code unit: A-Z, and the accented capitals
    U+00C0..U+00DE except the multiplication sign U+00D7. *)
Definition lower_char (c : ascii) : ascii :=
  let n := N_of_ascii c in
  if ((65 <=? n) && (n <=? 90))%N
     || ((192 <=? n) && (n <=? 222) && negb (n =? 215))%N
  then ascii_of_N (n + 32) else c.

(** [s.toLowerCase()] *)
Fixpoint toLowerCase (s : string) : string :=
  match s with
  | EmptyString => EmptyString
  | String c rest => String (lower_char c) (toLowerCase rest)
  end.

(** [s.slice(n)] for [0 <= n]. *)
Fixpoint drop (n : nat) (s : string) : string :=
  match n, s with
  | O, _ => s
  | S _, EmptyString => EmptyString
  | S k, String _ rest => drop k rest
  end.

(** [s.replace(pat, '')] with a string pattern: the first occurrence of
    [pat] is removed, a string without occurrence is returned as it is. *)
Fixpoint remove_first (pat s : string) : string :=
  if String.prefix pat s then drop (String.length pat) s
  else match s with
       | EmptyString => EmptyString
       | String c rest => String c (remove_first pat rest)
       end.

(** [\w] of a regular expression. *)
Definition is_word_char (c : ascii) : bool :=
  let n := N_of_ascii c in
  (((48 <=? n) && (n <=? 57)) || ((65 <=? n) && (n <=? 90))
   || ((97 <=? n) && (n <=? 122)) || (n =? 95))%N.

Fixpoint all_word (s : string) : bool :=
  match s with
  | EmptyString => true
  | String c rest => is_word_char c && all_word rest
  end.

(** [/\.\w+$/.test(s)]: some suffix of [s] is a dot followed by one or
    more word characters up to the end of the string. *)
Fixpoint has_extension (s : string) : bool :=
  match s with
  | EmptyString => false
  | String c rest =>
      (Ascii.eqb c "." && negb (String.eqb rest "") && all_word rest)
      || has_extension rest
  end.

(** The longest prefix without a slash, and what follows it. *)
Fixpoint span_no_slash (s : string) : string * string :=
  match s with
  | EmptyString => (EmptyString, EmptyString)
  | String c rest =>
      if Ascii.eqb c "/" then (EmptyString, s)
      else let '(g, r) := span_no_slash rest in (String c g, r)
  end.

(** [String.prefix] with the remainder. *)
Fixpoint strip_prefix (p s : string) : option string :=
  match p, s with
  | EmptyString, _ => Some s
  | String a p', String b s' =>
      if Ascii.eqb a b then strip_prefix p' s' else None
  | String _ _, EmptyString => None
  end.

(** One attempt of [/\.\/theme-([^/]+)\/theme\.json/] at the head of [s].
    The group [[^/]+] is greedy and cannot give a slash back: whatever
    follows a shorter run is not a slash, so only the longest run can be
    followed by [/theme.json]. *)
Definition theme_match_here (s : string) : option string :=
  match strip_prefix "./theme-" s with
  | None => None
  | Some r =>
      let '(g, r') := span_no_slash r in
      if String.eqb g "" then None
      else if String.prefix "/theme.json" r' then Some g else None
  end.

(** [s.match(/\.\/theme-([^/]+)\/theme\.json/)?.[1]]: the capture of the
    leftmost match, [None] when the expression matches nowhere. *)
Fixpoint theme_match (s : string) : option string :=
  match theme_match_here s with
  | Some g => Some g
  | None => match s with
            | EmptyString => None
            | String _ rest => theme_match rest
            end
  end.

End JsString.

(** ** JavaScript values

    The values [JSON.parse] produces and property reads return. An object is
    the list of its own properties, each name once. *)

Inductive jsval : Type :=
| JUndefined
| JNull
| JBool (b : bool)
| JNum (q : Qc)
| JStr (s : string)
| JArr (items : list jsval)
| JObj (fields : list (string * jsval)).

(** ToBoolean: what [!v] and [v || w] test. *)
Definition truthy (v : jsval) : bool :=
  match v with
  | JUndefined | JNull => false
  | JBool b => b
  | JNum q => negb (bool_decide (q = 0%Qc))
  | JStr s => negb (String.eqb s "")
  | JArr _ | JObj _ => true
  end.

Fixpoint assoc {A : Type} (k : string) (l : list (string * A)) : option A :=
  match l with
  | [] => None
  | (k', v) :: rest => if String.eqb k k' then Some v else assoc k rest
  end.

(** [v.name], also the read of [const { name } = v]: a TypeError ([None])
    on [null] and [undefined], [undefined] where the property is missing. *)
Definition get_prop (name : string) (v : jsval) : option jsval :=
  match v with
  | JUndefined | JNull => None
  | JObj fields => Some (default JUndefined (assoc name fields))
  | _ => Some JUndefined
  end.

(** [s === v] for a string [s]. *)
Definition strict_eq_string (s : string) (v : jsval) : bool :=
  match v with
  | JStr t => String.eqb s t
  | _ => false
  end.

(** Whether [`${v}`] succeeds. The conversion of an object to a string
    calls its [toString]: an own property of that name, which is never a
    function in a parsed document, hides the inherited one and the
    conversion throws a TypeError. An array converts its items in turn. *)
Fixpoint convertible (v : jsval) : bool :=
  match v with
  | JObj fields =>
      match assoc "toString" fields with
      | Some _ => false
      | None => true
      end
  | JArr items => forallb convertible items
  | _ => true
  end.

(** [`${o}`] for an environment variable, a string or [undefined]. *)
Definition interpolate (o : option string) : string := default "undefined" o.

(** [h || ''] for a request header. *)
Definition or_empty (h : option string) : string := default "" h.

(** ** Data model *)

Definition Buffer : Type := list Byte.byte.

(** [Buffer | string], the payload of [res.end] and the input of zlib. *)
Inductive Data : Type :=
| Text (s : string)
| Bytes (b : Buffer).

Record CompressedVersions : Type := {
  gzip : option Buffer;
  br : option Buffer;
  uncompressed : string
}.

Record PageCacheEntry : Type := {
  html : string;
  compressedVersions : CompressedVersions;
  timestamp : Z;
  headers : list (string * string)
}.

Record FileCacheEntry : Type := {
  buffer : Buffer;
  etag : string;
  mtime : Z
}.

Record ThemeDescriptor : Type := {
  namespace : string;
  name : jsval;
  description : jsval;
  author : jsval;
  version : jsval;
  preview : string
}.

Definition PAGE_CACHE_DURATION : Z := 30 * 60 * 1000.

(** What the file system answers for a path: a regular file with its
    modification time and its content ([None] when reading it throws), a
    directory with the names [readdirSync] lists, or something else. *)
Inductive FsNode : Type :=
| FsFile (mtime_ms : Z) (content : option Buffer)
| FsDir (names : list string)
| FsOther.

Definition FileSystem : Type := string -> option FsNode.

Record Env : Type := {
  VITE_SIGNATURE : option string;
  VITE_WEBSITE_URL : option string
}.

Record Request : Type := {
  url : string;
  method : string;
  accept_encoding : option string;
  if_none_match : option string;
  user_agent : option string;
  authorization : option string;
  body : string
}.

Inductive Body : Type :=
| NoBody
| Payload (d : Data)
| Json (v : jsval).

Record Response : Type := {
  statusCode : Z;
  resHeaders : list (string * string);
  resBody : Body
}.

(** Lines written with [console.log] and [console.error]. *)
Inductive LogLine : Type :=
| LogCacheCleared (removed : nat)
| LogThemeSet (theme : jsval)
| LogThemeLoadError (path : string)
| LogServeError (path : string).

(** A pending [setTimeout]: the restart of line 348. *)
Inductive Timer : Type :=
| RestartTimer (delay : Z) (theme : jsval).

Record Server : Type := {
  pageCache : gmap string PageCacheEntry;
  fileCache : gmap string FileCacheEntry;
  themes : list (string * ThemeDescriptor);
  console : list LogLine;
  timers : list Timer
}.

(** ** Collaborators *)

Class Zlib : Type := {
  gzipSync : Data -> Buffer;
  brotliCompressSync : Data -> Buffer
}.

Class Platform : Type := {
  md5_hex : Buffer -> string;
  mime_lookup : string -> option string;
  JSON_parse : string -> option jsval;
  utf8_decode : Buffer -> string;
  to_string : jsval -> string;
  path_join : string -> string -> string
}.

(** What lines 435 to 478 come to for one request: the renderer or a
    template transformation throws (before or after the response headers
    of line 474 are set), the route redirects, or the document is
    assembled. *)
Inductive Rendered : Type :=
| RenderThrows (message : string) (headersSet : bool)
| RenderRedirect (location : string)
| RenderPage (template : string).

(** The answer of the settings backend to the fetch of line 338, [None]
    when the fetch or the decoding of its answer throws. *)
Definition SettingsFetch : Type := option jsval.

(** ** Handlers as state transformers

    A handler reads and updates the server state and produces a value. *)

Definition M (A : Type) : Type := Server -> A * Server.

Definition ret {A : Type} (a : A) : M A := fun st => (a, st).

Definition bind {A B : Type} (m : M A) (k : A -> M B) : M B :=
  fun st => let '(a, st') := m st in k a st'.

Definition gets {A : Type} (f : Server -> A) : M A := fun st => (f st, st).

Definition modify (f : Server -> Server) : M unit := fun st => (tt, f st).

#[global] Instance handler_ret : MRet M := @ret.
#[global] Instance handler_bind : MBind M := fun A B k m => bind m k.

Definition set_pageCache (c : gmap string PageCacheEntry) (st : Server) : Server :=
  {| pageCache := c; fileCache := fileCache st; themes := themes st;
     console := console st; timers := timers st |}.

Definition set_fileCache (c : gmap string FileCacheEntry) (st : Server) : Server :=
  {| pageCache := pageCache st; fileCache := c; themes := themes st;
     console := console st; timers := timers st |}.

Definition log (l : LogLine) (st : Server) : Server :=
  {| pageCache := pageCache st; fileCache := fileCache st; themes := themes st;
     console := console st ++ [l]; timers := timers st |}.

Definition setTimeout (t : Timer) (st : Server) : Server :=
  {| pageCache := pageCache st; fileCache := fileCache st; themes := themes st;
     console := console st; timers := timers st ++ [t] |}.

(** ** Responses *)

Definition freshResponse : Response :=
  {| statusCode := 200; resHeaders := []; resBody := NoBody |}.

(** [res.setHeader(k, v)]: a header set twice keeps its last value. *)
Definition setHeader (k v : string) (r : Response) : Response :=
  {| statusCode := statusCode r;
     resHeaders := List.filter (fun kv => negb (String.eqb (fst kv) k)) (resHeaders r) ++ [(k, v)];
     resBody := resBody r |}.

Definition setStatus (code : Z) (r : Response) : Response :=
  {| statusCode := code; resHeaders := resHeaders r; resBody := resBody r |}.

(** [res.writeHead(code, hs)] *)
Definition writeHead (code : Z) (hs : list (string * string)) (r : Response) : Response :=
  setStatus code (fold_left (fun acc kv => setHeader (fst kv) (snd kv) acc) hs r).

(** [res.end(d)] and [res.end()] *)
Definition endWith (b : Body) (r : Response) : Response :=
  {| statusCode := statusCode r; resHeaders := resHeaders r; resBody := b |}.

Definition header (k : string) (r : Response) : option string := assoc k (resHeaders r).

(** ** Page Render Cache (lines 30 to 94) *)

(** [now - entry.timestamp > PAGE_CACHE_DURATION] *)
Definition is_expired (now : Z) (entry : PageCacheEntry) : bool :=
  (now - timestamp entry >? PAGE_CACHE_DURATION)%Z.

(** The loop of [cleanExpiredPageCache]: every entry of the map is visited
    once and deleted from the map when its test holds. *)
Definition sweep_step (now : Z) (cache : gmap string PageCacheEntry)
    (kv : string * PageCacheEntry) : gmap string PageCacheEntry :=
  if is_expired now (snd kv) then delete (fst kv) cache else cache.

Definition sweep (now : Z) (cache : gmap string PageCacheEntry) : gmap string PageCacheEntry :=
  fold_left (sweep_step now) (map_to_list cache) cache.

Definition cleanExpiredPageCache (now : Z) : M unit :=
  modify (fun st => set_pageCache (sweep now (pageCache st)) st).

Definition isPageCacheValid (key : string) (now : Z) : M bool :=
  gets (fun st =>
    match pageCache st !! key with
    | None => false
    | Some entry => (now - timestamp entry <? PAGE_CACHE_DURATION)%Z
    end).

(** The device class of line 60, the local [isMobile]. *)
Definition isMobile (userAgent : option string) : string :=
  match userAgent with
  | Some ua =>
      if JsString.includes "mobile" (JsString.toLowerCase ua)
      then "mobile" else "desktop"
  | None => "desktop"
  end.

Definition generateCacheKey (url : string) (userAgent : option string) : string :=
  url +:+ ":" +:+ isMobile userAgent.

(** [clearPageCache] is a procedure: it logs the size and returns nothing,
    which a caller reads as [undefined]. *)
Definition clearPageCache : M jsval :=
  cacheSize ← gets (fun st => size (pageCache st));
  modify (set_pageCache ∅);;
  modify (log (LogCacheCleared cacheSize));;
  mret JUndefined.

Record CacheStats : Type := {
  total : nat;
  valid : nat;
  expired : nat
}.

(** The loop of [getCacheStats] over [(validEntries, expiredEntries)]. *)
Definition stats_step (now : Z) (acc : nat * nat) (kv : string * PageCacheEntry) : nat * nat :=
  if is_expired now (snd kv) then (fst acc, S (snd acc)) else (S (fst acc), snd acc).

Definition getCacheStats (now : Z) : M CacheStats :=
  cache ← gets pageCache;
  let counts := fold_left (stats_step now) (map_to_list cache) (O, O) in
  mret {| total := size cache; valid := fst counts; expired := snd counts |}.

(** ** Compression negotiation (lines 96 to 132) *)

Section Compression.
Context `{Zlib}.

Definition compressHtml (html : string) (acceptEncoding : option string) : Data * option string :=
  let acceptEncoding := or_empty acceptEncoding in
  if JsString.includes "br" acceptEncoding then
    (Bytes (brotliCompressSync (Text html)), Some "br")
  else if JsString.includes "gzip" acceptEncoding then
    (Bytes (gzipSync (Text html)), Some "gzip")
  else (Text html, None).

Definition compressFile (buffer : Buffer) (acceptEncoding : option string) : Buffer * option string :=
  let acceptEncoding := or_empty acceptEncoding in
  if JsString.includes "br" acceptEncoding then
    (brotliCompressSync (Bytes buffer), Some "br")
  else if JsString.includes "gzip" acceptEncoding then
    (gzipSync (Bytes buffer), Some "gzip")
  else (buffer, None).

End Compression.

(** ** Static files (lines 134 to 198) *)

Section StaticFiles.
Context `{Zlib} `{Platform}.

Definition compressibleTypes : list string :=
  ["text/"; "application/javascript"; "application/json"; "image/svg+xml";
   "application/xml"].

(** Lines 158 to 160: the file is read and digested, and the result
    replaces the entry of [fileCache]. [None] when [readFileSync] throws. *)
Definition readAndCache (filePath : string) (mtime_now : Z) (content : option Buffer)
    : M (option (Buffer * string)) :=
  match content with
  | None => mret None
  | Some buf =>
      let tag := md5_hex buf in
      modify (fun st => set_fileCache
        (<[filePath := {| buffer := buf; etag := tag; mtime := mtime_now |}]> (fileCache st)) st);;
      mret (Some (buf, tag))
  end.

(** Lines 149 to 161: the cached buffer and tag when the cached
    modification time is the current one, else a fresh read. *)
Definition loadFile (filePath : string) (mtime_now : Z) (content : option Buffer)
    : M (option (Buffer * string)) :=
  cacheEntry ← gets (fun st => fileCache st !! filePath);
  match cacheEntry with
  | Some ce =>
      if (mtime ce =? mtime_now)%Z then mret (Some (buffer ce, etag ce))
      else readAndCache filePath mtime_now content
  | None => readAndCache filePath mtime_now content
  end.

(** Lines 163 to 193, once the buffer and the tag are known. *)
Definition respondFile (req : Request) (filePath : string) (buf : Buffer) (tag : string)
    : Response :=
  let acceptEncoding := or_empty (accept_encoding req) in
  let ifNoneMatch := or_empty (if_none_match req) in
  let contentType :=
    match mime_lookup filePath with
    | Some t => if String.eqb t "" then "application/octet-stream" else t
    | None => "application/octet-stream"
    end in
  if String.eqb ifNoneMatch tag then
    endWith NoBody (writeHead 304 [("ETag", tag)] freshResponse)
  else
    let res := setHeader "Cache-Control" "public, max-age=900"
                 (setHeader "ETag" tag
                    (setHeader "Content-Type" contentType freshResponse)) in
    let isCompressible :=
      existsb (fun type => JsString.includes type contentType) compressibleTypes in
    if isCompressible then
      let compressed := compressFile buf (Some acceptEncoding) in
      let res :=
        match snd compressed with
        | Some encoding =>
            if String.eqb encoding "" then res
            else setHeader "Vary" "Accept-Encoding"
                   (setHeader "Content-Encoding" encoding res)
        | None => res
        end in
      endWith (Payload (Bytes (fst compressed))) res
    else endWith (Payload (Bytes buf)) res.

(** [serveStaticFile]: [None] is the [false] of the source (nothing was
    written to the response), [Some res] is [true] with the response. *)
Definition serveStaticFile (fs : FileSystem) (req : Request) (filePath : string)
    : M (option Response) :=
  match fs filePath with
  | None => mret None
  | Some (FsFile mtime_now content) =>
      loaded ← loadFile filePath mtime_now content;
      match loaded with
      | None => modify (log (LogServeError filePath));; mret None
      | Some (buf, tag) => mret (Some (respondFile req filePath buf tag))
      end
  | Some _ => mret None
  end.

End StaticFiles.

(** ** Theme registry (lines 213 to 235) *)

(** [obj[k] = v] on an object used as a dictionary: an existing key keeps
    its place, a new key goes last. *)
Fixpoint obj_set {A : Type} (k : string) (v : A) (o : list (string * A)) : list (string * A) :=
  match o with
  | [] => [(k, v)]
  | (k', v') :: rest =>
      if String.eqb k k' then (k, v) :: rest else (k', v') :: obj_set k v rest
  end.

Section Themes.
Context `{Platform}.

(** [fs.statSync(p).isDirectory()]; [None] when [statSync] throws because
    the path does not resolve. *)
Definition isDirectory (fs : FileSystem) (p : string) : option bool :=
  match fs p with
  | Some (FsDir _) => Some true
  | Some _ => Some false
  | None => None
  end.

(** The [filter] of line 215 over the listed names, in order: [statSync] is
    called for the names that start with "theme-" only; [None] when one of
    these calls throws, which nothing catches. *)
Fixpoint keepThemeFolders (fs : FileSystem) (themesDir : string) (names : list string)
    : option (list string) :=
  match names with
  | [] => Some []
  | folder :: rest =>
      if JsString.startsWith "theme-" folder then
        directory ← isDirectory fs (path_join themesDir folder);
        kept ← keepThemeFolders fs themesDir rest;
        Some (if directory : bool then folder :: kept else kept)
      else keepThemeFolders fs themesDir rest
  end.

(** Lines 214 and 215; [None] when [readdirSync] or [statSync] throws. *)
Definition themeFolders (fs : FileSystem) (themesDir : string) : option (list string) :=
  match fs themesDir with
  | Some (FsDir names) => keepThemeFolders fs themesDir names
  | _ => None
  end.

(** The body of the [try] of lines 222 to 230; [None] when it throws. *)
Definition readTheme (fs : FileSystem) (env : Env) (folder themeJsonPath : string)
    : option ThemeDescriptor :=
  match fs themeJsonPath with
  | Some (FsFile _ (Some bytes)) =>
      themeData ← JSON_parse (utf8_decode bytes);
      name ← get_prop "name" themeData;
      description ← get_prop "description" themeData;
      author ← get_prop "author" themeData;
      version ← get_prop "version" themeData;
      preview ← get_prop "preview" themeData;
      previewText ← (if convertible preview then Some (to_string preview) else None);
      Some {| namespace := JsString.remove_first "theme-" folder;
              name := name; description := description; author := author;
              version := version;
              preview := interpolate (VITE_WEBSITE_URL env) +:+ previewText |}
  | _ => None
  end.

(** One turn of the loop of line 218 over the registry and the console. *)
Definition loadTheme (fs : FileSystem) (env : Env) (themesDir : string)
    (acc : list (string * ThemeDescriptor) * list LogLine) (folder : string)
    : list (string * ThemeDescriptor) * list LogLine :=
  let themeJsonPath := path_join (path_join themesDir folder) "theme.json" in
  match fs themeJsonPath with
  | None => acc
  | Some _ =>
      match readTheme fs env folder themeJsonPath with
      | Some d => (obj_set ("./" +:+ folder +:+ "/theme.json") d (fst acc), snd acc)
      | None => (fst acc, (snd acc ++ [LogThemeLoadError themeJsonPath])%list)
      end
  end.

Definition discoverThemes (fs : FileSystem) (env : Env) (themesDir : string)
    : option (list (string * ThemeDescriptor) * list LogLine) :=
  folders ← themeFolders fs themesDir;
  Some (fold_left (loadTheme fs env themesDir) folders ([], [])).

(** The server a bootstrap leaves behind: the registry is built, the caches
    of the module are empty at the first start. *)
Definition bootstrap (fs : FileSystem) (env : Env) (themesDir : string) : option Server :=
  found ← discoverThemes fs env themesDir;
  Some {| pageCache := ∅; fileCache := ∅; themes := fst found;
          console := snd found; timers := [] |}.

End Themes.

(** ** Administrative endpoints (lines 241 to 365) *)

Definition num_of_nat (n : nat) : jsval := JNum (Q2Qc (inject_Z (Z.of_nat n))).

(** [authHeader !== expectedAuth] negated. *)
Definition authorized (env : Env) (req : Request) : bool :=
  String.eqb (or_empty (authorization req))
             ("Bearer " +:+ interpolate (VITE_SIGNATURE env)).

Definition unauthorized : Response :=
  endWith (Payload (Text "Unauthorized"))
    (setHeader "Content-Type" "text/plain" (setStatus 401 freshResponse)).

(** [GET /themas] *)
Definition themasHandler : M Response :=
  registry ← gets themes;
  mret (endWith (Json (JArr (map (fun kv =>
                   let d := snd kv in
                   JObj [("namespace", JStr (namespace d)); ("name", name d);
                         ("description", description d); ("author", author d);
                         ("version", version d); ("preview", JStr (preview d))])
                 registry)))
          (setStatus 200 (setHeader "Content-Type" "application/json" freshResponse))).

(** [POST /cache/clear] *)
Definition cacheClearHandler (env : Env) (req : Request) : M Response :=
  if negb (authorized env req) then mret unauthorized
  else
    clearPageCache;;
    mret (endWith (Json (JObj [("success", JBool true);
                               ("message", JStr "Cache cleared successfully")]))
            (setHeader "Content-Type" "application/json" (setStatus 200 freshResponse))).

(** [GET /cache/stats] *)
Definition cacheStatsHandler (env : Env) (now : Z) (req : Request) : M Response :=
  if negb (authorized env req) then mret unauthorized
  else
    stats ← getCacheStats now;
    mret (endWith (Json (JObj [("total", num_of_nat (total stats));
                               ("valid", num_of_nat (valid stats));
                               ("expired", num_of_nat (expired stats))]))
            (setHeader "Content-Type" "application/json" (setStatus 200 freshResponse))).

(** Lines 337 to 341, the exchange with the settings backend and the
    settings store: it throws or it completes. *)
Inductive SettingsUpdate : Type :=
| UpdateThrows
| UpdateDone.

(** Lines 325 to 328. *)
Definition themeExists (registry : list (string * ThemeDescriptor)) (theme : jsval) : bool :=
  existsb (fun kv =>
             let themeName := default "" (JsString.theme_match (fst kv)) in
             strict_eq_string themeName theme)
          registry.

Definition invalidBody : Response :=
  endWith (Payload (Text "Invalid request body"))
    (setHeader "Content-Type" "text/plain" (setStatus 400 freshResponse)).

Section SetThema.
Context `{Platform}.

(** [POST /set-thema], with the body read in full. *)
Definition setThemaHandler (env : Env) (update : SettingsUpdate) (req : Request)
    : M Response :=
  if negb (authorized env req) then mret unauthorized
  else
    match JSON_parse (body req) ≫= get_prop "theme" with
    | None => mret invalidBody
    | Some theme =>
        if negb (truthy theme) then
          mret (endWith (Json (JObj [("success", JBool false);
                                     ("error", JStr "Theme name is required")]))
                  (setHeader "Content-Type" "application/json"
                     (setStatus 400 freshResponse)))
        else
          registry ← gets themes;
          if negb (themeExists registry theme) then
            mret (endWith (Payload (Text "Theme not found"))
                    (setHeader "Content-Type" "text/plain" (setStatus 404 freshResponse)))
          else
            match update with
            | UpdateThrows => mret invalidBody
            | UpdateDone =>
                modify (log (LogThemeSet theme));;
                modify (setTimeout (RestartTimer 500 theme));;
                mret (endWith
                        (Payload (Text "Theme set successfully. Server will restart to apply changes."))
                        (setHeader "Content-Type" "text/plain" (setStatus 200 freshResponse)))
            end
    end.

End SetThema.

(** ** The cache-or-render cycle (lines 393 to 505) *)

Section Cycle.
Context `{Zlib}.

Definition responseHeaders : list (string * string) :=
  [("Content-Type", "text/html"); ("Cache-Control", "public, max-age=900")].

Definition replayHeaders (hs : list (string * string)) (r : Response) : Response :=
  fold_left (fun acc kv => setHeader (fst kv) (snd kv) acc) hs r.

(** Lines 408 to 428: the answer from a cached entry. *)
Definition serveCached (acceptEncoding : string) (cachedEntry : PageCacheEntry) : Response :=
  let res := replayHeaders (headers cachedEntry) freshResponse in
  let versions := compressedVersions cachedEntry in
  let '(data, encoding) :=
    match JsString.includes "br" acceptEncoding, br versions with
    | true, Some b => (Bytes b, Some "br")
    | _, _ =>
        match JsString.includes "gzip" acceptEncoding, gzip versions with
        | true, Some g => (Bytes g, Some "gzip")
        | _, _ => (Text (uncompressed versions), None)
        end
    end in
  let res := match encoding with
             | Some e => setHeader "Content-Encoding" e res
             | None => res
             end in
  endWith (Payload data) res.

(** Lines 481 to 493: the entry written for a rendered document. *)
Definition makeEntry (template : string) (now : Z) : PageCacheEntry :=
  let gzipCompressed := gzipSync (Text template) in
  let brotliCompressed := brotliCompressSync (Text template) in
  {| html := template;
     compressedVersions := {| gzip := Some gzipCompressed;
                              br := Some brotliCompressed;
                              uncompressed := template |};
     timestamp := now;
     headers := responseHeaders |}.

(** [pageCache.set(cacheKey, ...)] of line 484. *)
Definition storePage (cacheKey template : string) (now : Z) : M unit :=
  modify (fun st => set_pageCache (<[cacheKey := makeEntry template now]> (pageCache st)) st).

(** Lines 435 to 500: the miss path. *)
Definition renderAndStore (acceptEncoding cacheKey : string) (rendered : Rendered)
    (t_store : Z) : M Response :=
  match rendered with
  | RenderThrows message headersSet =>
      let res := if headersSet then replayHeaders responseHeaders freshResponse
                 else freshResponse in
      mret (endWith (Payload (Text message)) (setStatus 500 res))
  | RenderRedirect location =>
      mret (endWith NoBody (writeHead 301 [("Location", location)] freshResponse))
  | RenderPage template =>
      let res := replayHeaders responseHeaders freshResponse in
      storePage cacheKey template t_store;;
      let compressed := compressHtml template (Some acceptEncoding) in
      let res := match snd compressed with
                 | Some e => setHeader "Content-Encoding" e res
                 | None => res
                 end in
      mret (endWith (Payload (fst compressed)) res)
  end.

(** The callback handed to the middleware stack. The clock is read three
    times: by the sweep, by the validity test and by the store. *)
Definition cacheOrRender (t_sweep t_lookup t_store : Z) (rendered : Rendered)
    (req : Request) : M Response :=
  let acceptEncoding := or_empty (accept_encoding req) in
  if JsString.has_extension (url req) then
    mret (endWith (Payload (Text ("Not found: " +:+ url req))) (setStatus 404 freshResponse))
  else
    cleanExpiredPageCache t_sweep;;
    let userAgent := or_empty (user_agent req) in
    let cacheKey := generateCacheKey (url req) (Some userAgent) in
    hit ← isPageCacheValid cacheKey t_lookup;
    cached ← gets (fun st => pageCache st !! cacheKey);
    match hit, cached with
    | true, Some cachedEntry => mret (serveCached acceptEncoding cachedEntry)
    | _, _ => renderAndStore acceptEncoding cacheKey rendered t_store
    end.

End Cycle.

(** ** The server as a transition system *)

(** [readdirSync] lists plain names, without a slash. *)
Definition plain_names (fs : FileSystem) : Prop :=
  forall p names folder,
    fs p = Some (FsDir names) -> In folder names -> JsString.includes "/" folder = false.

Section Transitions.
Context `{Zlib} `{Platform}.

(** The timer of line 348 fires: the listener is closed and [bootstrap]
    runs again, which rebuilds the registry; the maps of the module stay. *)
Definition restart (fs : FileSystem) (env : Env) (themesDir : string) (st : Server)
    : option Server :=
  match timers st with
  | [] => None
  | _ :: pending =>
      found ← discoverThemes fs env themesDir;
      Some {| pageCache := pageCache st; fileCache := fileCache st;
              themes := fst found; console := (console st ++ snd found)%list;
              timers := pending |}
  end.

Inductive step : Server -> Server -> Prop :=
| step_themas st :
    step st (snd (themasHandler st))
| step_cache_clear env req st :
    step st (snd (cacheClearHandler env req st))
| step_cache_stats env now req st :
    step st (snd (cacheStatsHandler env now req st))
| step_set_thema env update req st :
    step st (snd (setThemaHandler env update req st))
| step_static fs req filePath st :
    step st (snd (serveStaticFile fs req filePath st))
| step_cycle t_sweep t_lookup t_store rendered req st :
    step st (snd (cacheOrRender t_sweep t_lookup t_store rendered req st))
| step_restart fs env themesDir st st' :
    plain_names fs ->
    restart fs env themesDir st = Some st' ->
    step st st'.

(** The states a started server can be in. *)
Definition reachable (st : Server) : Prop :=
  exists fs env themesDir st0,
    plain_names fs /\ bootstrap fs env themesDir = Some st0 /\ rtc step st0 st.

End Transitions.

(** ** The request listener (lines 237 to 507) *)

(** [path.resolve('dist', p)] *)
Class Paths : Type := {
  resolve_dist : string -> string
}.

(** What the world answers during one request: the file system, the
    settings backend, whether the template and the render module load
    (lines 382 to 390), what the middleware stack of the dev server does
    (it answers itself, or it calls the callback), what the renderer gives,
    and the readings of the clock. *)
Record Turn : Type := {
  turn_fs : FileSystem;
  turn_settings : SettingsUpdate;
  turn_loads : bool;
  turn_middleware : option Response;
  turn_rendered : Rendered;
  turn_stats : Z;
  turn_sweep : Z;
  turn_lookup : Z;
  turn_store : Z
}.

Section Listener.
Context `{Zlib} `{Platform} `{Paths}.

Definition answered (h : M Response) : M (option Response) :=
  res ← h; mret (Some res).

(** Lines 379 to 506: the template and the renderer are loaded, then the
    middleware stack runs with the cache-or-render cycle as its callback.
    [None] when loading throws: the listener writes no answer. *)
Definition renderRoute (w : Turn) (req : Request) : M (option Response) :=
  if negb (turn_loads w) then mret None
  else
    match turn_middleware w with
    | Some res => mret (Some res)
    | None =>
        answered (cacheOrRender (turn_sweep w) (turn_lookup w) (turn_store w)
                    (turn_rendered w) req)
    end.

(** The listener of line 237. *)
Definition handleRequest (env : Env) (w : Turn) (req : Request) : M (option Response) :=
  let url := url req in
  if String.eqb url "/themas" && String.eqb (method req) "GET" then
    answered themasHandler
  else if String.eqb url "/cache/clear" && String.eqb (method req) "POST" then
    answered (cacheClearHandler env req)
  else if String.eqb url "/cache/stats" && String.eqb (method req) "GET" then
    answered (cacheStatsHandler env (turn_stats w) req)
  else if String.eqb url "/set-thema" && String.eqb (method req) "POST" then
    answered (setThemaHandler env (turn_settings w) req)
  else
    asset ← (if JsString.startsWith "/assets/" url
             then serveStaticFile (turn_fs w) req (resolve_dist ("." +:+ url))
             else mret None);
    match asset with
    | Some res => mret (Some res)
    | None =>
        static ← (if negb (String.eqb url "/") && negb (JsString.includes "?" url)
                     && JsString.has_extension url
                  then serveStaticFile (turn_fs w) req (resolve_dist ("." +:+ url))
                  else mret None);
        match static with
        | Some res => mret (Some res)
        | None => renderRoute w req
        end
    end.

End Listener.

(** ** Vocabulary of the statements *)

(** The number of entries of a listing that pass a test. *)
Definition count (f : PageCacheEntry -> bool) (l : list (string * PageCacheEntry)) : nat :=
  length (List.filter (fun kv => f (snd kv)) l).

Section Vocabulary.
Context `{Zlib} `{Platform}.

(** An entry is complete when its three variants are the document and its
    two compressions. *)
Definition entry_complete (e : PageCacheEntry) : Prop :=
  gzip (compressedVersions e) = Some (gzipSync (Text (html e)))
  /\ br (compressedVersions e) = Some (brotliCompressSync (Text (html e)))
  /\ uncompressed (compressedVersions e) = html e.

(** The tag of a cached file is the digest of its cached bytes. *)
Definition tagged (ce : FileCacheEntry) : Prop := etag ce = md5_hex (buffer ce).

End Vocabulary.

(** A registry entry as discovery writes it: the key names a plain folder
    with the theme prefix, the namespace is the folder without it. *)
Definition discovered (kv : string * ThemeDescriptor) : Prop :=
  exists folder,
    fst kv = "./" +:+ folder +:+ "/theme.json"
    /\ JsString.startsWith "theme-" folder = true
    /\ JsString.includes "/" folder = false
    /\ namespace (snd kv) = JsString.remove_first "theme-" folder.

(** A theme is registered when some descriptor of the registry has it as
    its namespace. *)
Definition registered (registry : list (string * ThemeDescriptor)) (theme : jsval) : Prop :=
  exists k d, In (k, d) registry /\ theme = JStr (namespace d).

(** ** A concrete platform to run the model on *)

Module Sample.

Definition bytes_of (d : Data) : Buffer :=
  match d with
  | Text s => list_byte_of_string s
  | Bytes b => b
  end.

(** Stand-ins for the two compressors: the payload behind a marker. *)
#[local] Instance zlib : Zlib := {|
  gzipSync d := (Byte.x1f :: Byte.x8b :: bytes_of d);
  brotliCompressSync d := (Byte.xce :: bytes_of d)
|}.

(** Stand-ins for the platform: a digest of the right shape, and a parser
    that knows the few documents used below (written with an apostrophe
    where JSON has a double quote). *)
#[local] Instance platform : Platform := {|
  md5_hex _ := "d41d8cd98f00b204e9800998ecf8427e";
  mime_lookup p := if JsString.includes ".css" p then Some "text/css" else None;
  JSON_parse s :=
    if String.eqb s "{'theme':'unknown-namespace'}"
    then Some (JObj [("theme", JStr "unknown-namespace")])
    else if String.eqb s "{'name':'Default'}"
    then Some (JObj [("name", JStr "Default")])
    else if String.eqb s "{}" then Some (JObj [])
    else None;
  utf8_decode := string_of_list_byte;
  to_string v := match v with JStr s => s | _ => "undefined" end;
  path_join a b := a +:+ "/" +:+ b
|}.

Definition env : Env :=
  {| VITE_SIGNATURE := Some "s3cret"; VITE_WEBSITE_URL := Some "https://blog.example" |}.

Definition fs : FileSystem := fun p =>
  if String.eqb p "/srv/src" then Some (FsDir ["store"; "theme-default"; "theme-broken"])
  else if String.eqb p "/srv/src/theme-default" then Some (FsDir ["theme.json"])
  else if String.eqb p "/srv/src/theme-broken" then Some (FsDir ["theme.json"])
  else if String.eqb p "/srv/src/theme-default/theme.json"
  then Some (FsFile 1000 (Some (list_byte_of_string "{'name':'Default'}")))
  else if String.eqb p "/srv/src/theme-broken/theme.json"
  then Some (FsFile 1000 (Some (list_byte_of_string "not json")))
  else if String.eqb p "/srv/dist/assets/app.css"
  then Some (FsFile 2000 (Some (list_byte_of_string "body{}")))
  else None.

Definition request (method url : string) : Request :=
  {| url := url; method := method; accept_encoding := None; if_none_match := None;
     user_agent := None; authorization := None; body := "" |}.

Definition admin (method url body : string) : Request :=
  {| url := url; method := method; accept_encoding := None; if_none_match := None;
     user_agent := None; authorization := Some "Bearer s3cret"; body := body |}.

Definition started : Server :=
  default {| pageCache := ∅; fileCache := ∅; themes := []; console := []; timers := [] |}
          (bootstrap fs env "/srv/src").

(** The server after [GET /] was rendered at time 0. *)
Definition warmed : Server :=
  snd (cacheOrRender 0 0 0 (RenderPage "<html>home</html>") (request "GET" "/") started).

End Sample.

(** ** Words and acceptance of an encodings value *)

(** [word] occurs in [s]. *)
Definition contains (word s : string) : Prop :=
  exists before after, s = before +:+ word +:+ after.

(** What it is for a content coding to be accepted by an [Accept-Encoding]
    value, as HTTP defines it (RFC 9110, 12.5.3). This follows the words of
    the design document, not the code: the value is a comma-separated list
    of codings, each with an optional weight [;q=...]; names compare without
    regard to case; a coding listed with weight 0 is refused; a coding that
    is not listed is accepted when [*] is listed with a weight other
    than 0. *)
Module Http.

Fixpoint split_on (sep : ascii) (s : string) : list string :=
  match s with
  | EmptyString => [EmptyString]
  | String c rest =>
      if Ascii.eqb c sep then EmptyString :: split_on sep rest
      else match split_on sep rest with
           | [] => [String c EmptyString]
           | piece :: pieces => String c piece :: pieces
           end
  end.

Definition is_space (c : ascii) : bool := Ascii.eqb c " " || Ascii.eqb c "009".

Fixpoint trim_left (s : string) : string :=
  match s with
  | EmptyString => EmptyString
  | String c rest => if is_space c then trim_left rest else s
  end.

Fixpoint trim_right (s : string) : string :=
  match s with
  | EmptyString => EmptyString
  | String c rest =>
      let rest' := trim_right rest in
      if is_space c && String.eqb rest' "" then EmptyString else String c rest'
  end.

Definition trim (s : string) : string := trim_left (trim_right s).

Fixpoint all_zero (s : string) : bool :=
  match s with
  | EmptyString => true
  | String c rest => Ascii.eqb c "0" && all_zero rest
  end.

(** The parameter is a weight of 0: [q=0], [q=0.], [q=0.0], ... *)
Definition weight_zero (param : string) : bool :=
  match JsString.strip_prefix "q=0" param with
  | Some EmptyString => true
  | Some (String c zeros) => Ascii.eqb c "." && all_zero zeros
  | None => false
  end.

(** One element of the list: the coding in lower case, and whether its
    weight is 0. *)
Definition element (text : string) : string * bool :=
  match split_on ";" text with
  | [] => (EmptyString, false)
  | coding :: params =>
      (JsString.toLowerCase (trim coding),
       existsb (fun p => weight_zero (JsString.toLowerCase (trim p))) params)
  end.

Definition accepts (coding header : string) : bool :=
  let elements := map element (split_on "," header) in
  match find (fun el => String.eqb (fst el) coding) elements with
  | Some el => negb (snd el)
  | None =>
      match find (fun el => String.eqb (fst el) "*") elements with
      | Some el => negb (snd el)
      | None => false
      end
  end.

(** The choice the design document describes: brotli if that is accepted,
    otherwise gzip if accepted, otherwise no encoding. *)
Definition negotiate (header : string) : option string :=
  if accepts "br" header then Some "br"
  else if accepts "gzip" header then Some "gzip"
  else None.

End Http.

(** ** Vocabulary of the further statements *)

Section ManifestVocabulary.
Context `{Platform}.




End ManifestVocabulary.

(** ** Requests through the listener of the sample server *)

Module Demo.

#[local] Instance paths : Paths := {|
  resolve_dist p := "/srv/dist" +:+ JsString.drop 1 p
|}.

(** A quiet turn at time [t]: the files of [Sample.fs], a settings backend
    that answers, a middleware stack that passes every request on, and a
    renderer that gives [page]. *)
Definition turn (t : Z) (page : string) : Turn :=
  {| turn_fs := Sample.fs; turn_settings := UpdateDone; turn_loads := true;
     turn_middleware := None; turn_rendered := RenderPage page;
     turn_stats := t; turn_sweep := t; turn_lookup := t; turn_store := t |}.

Definition phone (url : string) : Request :=
  {| url := url; method := "GET"; accept_encoding := Some "br";
     if_none_match := None;
     user_agent := Some "Mozilla/5.0 (iPhone) Mobile/15E148";
     authorization := None; body := "" |}.

(** The sample server with a stylesheet served once. *)
Definition served : Server :=
  snd (serveStaticFile (H := Sample.zlib) (H0 := Sample.platform) Sample.fs
         (Sample.request "GET" "/assets/app.css") "/srv/dist/assets/app.css"
         Sample.started).

(** The sample server with a second theme folder on disk. *)
Definition fs2 : FileSystem := fun p =>
  if String.eqb p "/srv/src" then Some (FsDir ["theme-default"; "theme-dark"])
  else if String.eqb p "/srv/src/theme-dark" then Some (FsDir ["theme.json"])
  else if String.eqb p "/srv/src/theme-dark/theme.json"
  then Some (FsFile 3000 (Some (list_byte_of_string "{}")))
  else Sample.fs p.

(** The sample platform with a parser that also knows the body naming the
    default theme. *)
#[local] Instance platform : Platform := {|
  md5_hex := md5_hex (Platform := Sample.platform);
  mime_lookup := mime_lookup (Platform := Sample.platform);
  JSON_parse s :=
    if String.eqb s "{'theme':'default'}"
    then Some (JObj [("theme", JStr "default")])
    else JSON_parse (Platform := Sample.platform) s;
  utf8_decode := utf8_decode (Platform := Sample.platform);
  to_string := to_string (Platform := Sample.platform);
  path_join := path_join (Platform := Sample.platform)
|}.

Definition switch : Request := Sample.admin "POST" "/set-thema" "{'theme':'default'}".

(** The warmed sample server after the administrator chose the default
    theme, and after the restart that follows, with [fs2] on disk. *)
Definition switched : Server :=
  snd (setThemaHandler (H := platform) Sample.env UpdateDone switch Sample.warmed).

Definition restarted : Server :=
  default switched
    (restart (H0 := platform) fs2 Sample.env "/srv/src" switched).

End Demo.

(** * Properties *)

(** Unfolding of the handler combinators. *)
Ltac run :=
  cbv [mbind mret handler_bind handler_ret bind ret gets modify] in *;
  cbn [fst snd pageCache fileCache themes console timers
       set_pageCache set_fileCache log setTimeout] in *.

(** ** Strings *)

Section StringFacts.
Implicit Types (s p r : string).

Lemma append_cons c s p : String c s +:+ p = String c (s +:+ p).
Proof. reflexivity. Qed.

Lemma append_assoc s p r : (s +:+ p) +:+ r = s +:+ (p +:+ r).
Proof.
  induction s as [|c s IH]; [reflexivity|]. rewrite !append_cons. now f_equal.
Qed.

Lemma list_of_append s p :
  list_ascii_of_string (s +:+ p) = (list_ascii_of_string s ++ list_ascii_of_string p)%list.
Proof.
  induction s as [|c s IH]; [reflexivity|]. rewrite append_cons. cbn. now f_equal.
Qed.

Lemma list_of_string_inj s p : list_ascii_of_string s = list_ascii_of_string p -> s = p.
Proof.
  intros E. rewrite <- (string_of_list_ascii_of_string s), <- (string_of_list_ascii_of_string p).
  now rewrite E.
Qed.

(** Two strings with a common tail are equal exactly when their heads are. *)
Lemma append_inv_tail s p r : s +:+ r = p +:+ r -> s = p.
Proof.
  intros E. apply list_of_string_inj.
  apply (f_equal list_ascii_of_string) in E. rewrite !list_of_append in E.
  now apply app_inv_tail in E.
Qed.

Lemma prefix_split p s : String.prefix p s = true -> exists r, s = p +:+ r.
Proof.
  revert s. induction p as [|a p IH]; intros s E.
  - now exists s.
  - destruct s as [|b s]; [discriminate|]. cbn [String.prefix] in E.
    destruct (ascii_dec a b) as [->|]; [|discriminate].
    destruct (IH _ E) as [r ->]. now exists r.
Qed.

Lemma prefix_empty s : String.prefix "" s = true.
Proof. now destruct s. Qed.

Lemma prefix_append p s : String.prefix p (p +:+ s) = true.
Proof.
  induction p as [|a p IH]; [apply prefix_empty|].
  rewrite append_cons. cbn [String.prefix]. now destruct (ascii_dec a a).
Qed.

Lemma includes_head needle c s :
  JsString.includes needle (String c s) = false -> JsString.includes needle s = false.
Proof. cbn [JsString.includes]. now destruct (String.prefix needle (String c s)). Qed.

(** The capture group reads a plain name up to the slash that ends it. *)
Lemma span_no_slash_plain s r :
  JsString.includes "/" s = false ->
  JsString.span_no_slash (s +:+ "/" +:+ r) = (s, "/" +:+ r).
Proof.
  induction s as [|c s IH]; intros E; [reflexivity|].
  rewrite append_cons. cbn [JsString.span_no_slash].
  destruct (Ascii.eqb_spec c "/") as [->|Hc].
  { cbn [JsString.includes] in E.
    change (String "/" s) with ("/" +:+ s) in E. now rewrite prefix_append in E. }
  rewrite IH; [reflexivity | exact (includes_head _ _ _ E)].
Qed.

End StringFacts.

(** ** Page Render Cache *)

Section PageCacheFacts.
Implicit Types (cache : gmap string PageCacheEntry) (now : Z) (key : string).

Lemma duration_value : PAGE_CACHE_DURATION = 1800000%Z.
Proof. reflexivity. Qed.

Lemma fold_sweep_lookup now (l : list (string * PageCacheEntry)) cache key :
  fold_left (sweep_step now) l cache !! key =
  if existsb (fun kv => String.eqb (fst kv) key && is_expired now (snd kv)) l
  then None else cache !! key.
Proof.
  revert cache. induction l as [|[k e] l IH]; intros cache; [reflexivity|].
  cbn [fold_left existsb fst snd]. rewrite IH. unfold sweep_step. cbn [fst snd].
  destruct (String.eqb_spec k key) as [->|Hne], (is_expired now e); cbn [andb orb];
    try reflexivity.
  - rewrite lookup_delete_eq. now destruct (existsb _ l).
  - now rewrite lookup_delete_ne.
Qed.

(** The sweep removes the entries whose age is above the duration and no
    other. *)
Lemma sweep_lookup now cache key :
  sweep now cache !! key =
  match cache !! key with
  | Some e => if is_expired now e then None else Some e
  | None => None
  end.
Proof.
  unfold sweep. rewrite fold_sweep_lookup.
  destruct (existsb _ (map_to_list cache)) eqn:E.
  - apply existsb_exists in E as [[k e] [Hin Hb]]. cbn [fst snd] in Hb.
    apply andb_true_iff in Hb as [Hk He]. apply String.eqb_eq in Hk as ->.
    apply list_elem_of_In, elem_of_map_to_list in Hin. now rewrite Hin, He.
  - destruct (cache !! key) as [e|] eqn:L; [|reflexivity].
    destruct (is_expired now e) eqn:X; [|reflexivity].
    assert (existsb (fun kv => String.eqb (fst kv) key && is_expired now (snd kv))
              (map_to_list cache) = true) as E'; [|congruence].
    apply existsb_exists. exists (key, e). split.
    + now apply list_elem_of_In, elem_of_map_to_list.
    + cbn [fst snd]. now rewrite String.eqb_refl, X.
Qed.

Lemma fold_stats now (l : list (string * PageCacheEntry)) (a b : nat) :
  fold_left (stats_step now) l (a, b) =
  ((a + count (fun e => negb (is_expired now e)) l)%nat,
   (b + count (is_expired now) l)%nat).
Proof.
  revert a b. induction l as [|[k e] l IH]; intros a b.
  - cbn. f_equal; lia.
  - cbn [fold_left]. unfold stats_step at 2. cbn [fst snd]. unfold count in *.
    cbn [List.filter snd]. destruct (is_expired now e); cbn [negb length];
      rewrite IH; f_equal; lia.
Qed.

Lemma count_partition (f : PageCacheEntry -> bool) (l : list (string * PageCacheEntry)) :
  (count (fun e => negb (f e)) l + count f l = length l)%nat.
Proof.
  unfold count. induction l as [|[k e] l IH]; [reflexivity|].
  cbn [List.filter snd]. destruct (f e); cbn [negb length]; lia.
Qed.

Lemma count_perm (f : PageCacheEntry -> bool) (l l' : list (string * PageCacheEntry)) :
  l ≡ₚ l' -> count f l = count f l'.
Proof.
  unfold count. induction 1 as [|[k e] l l' _ IH|[k e] [k' e'] l|l1 l2 l3 _ IH1 _ IH2].
  - reflexivity.
  - cbn [List.filter snd]. destruct (f e); cbn [length]; now rewrite IH.
  - cbn [List.filter snd]. now destruct (f e), (f e').
  - congruence.
Qed.

End PageCacheFacts.

Section LookupFacts.
Implicit Types (st : Server) (now : Z) (key : string).

(** Lookup only reads: the state it returns is the state it was given. *)
Lemma isPageCacheValid_frame key now st : snd (isPageCacheValid key now st) = st.
Proof. reflexivity. Qed.

(** Lookup misses exactly when the key is absent or the age of its entry
    has reached the duration. *)
Lemma isPageCacheValid_false key now st :
  fst (isPageCacheValid key now st) = false <->
  pageCache st !! key = None \/
  exists e, pageCache st !! key = Some e /\ (PAGE_CACHE_DURATION <= now - timestamp e)%Z.
Proof.
  unfold isPageCacheValid. run. destruct (pageCache st !! key) as [e|]; split.
  - intros E. right. exists e. split; [reflexivity|]. now apply Z.ltb_ge.
  - intros [?|[e' [[= <-] Hage]]]; [discriminate|]. now apply Z.ltb_ge.
  - now left.
  - reflexivity.
Qed.

(** The cycle begins with the sweep: an entry above the duration at the
    reading of the sweep is gone afterwards, unless the cycle itself wrote
    its key again. *)
Lemma cacheOrRender_sweeps `{Zlib} t_sweep t_lookup t_store rendered req st k e :
  JsString.has_extension (url req) = false ->
  pageCache st !! k = Some e ->
  is_expired t_sweep e = true ->
  k <> generateCacheKey (url req) (Some (or_empty (user_agent req))) ->
  pageCache (snd (cacheOrRender t_sweep t_lookup t_store rendered req st)) !! k = None.
Proof.
  intros Hext Hk He Hne. unfold cacheOrRender. rewrite Hext.
  unfold cleanExpiredPageCache, isPageCacheValid. run.
  assert (sweep t_sweep (pageCache st) !! k = None) as Hgone.
  { now rewrite sweep_lookup, Hk, He. }
  set (c := sweep t_sweep (pageCache st)) in *.
  set (key := generateCacheKey _ _) in *.
  destruct (c !! key) as [ce|] eqn:Hc.
  - destruct (t_lookup - timestamp ce <? PAGE_CACHE_DURATION)%Z.
    + exact Hgone.
    + unfold renderAndStore, storePage. destruct rendered; run; try exact Hgone.
      now rewrite lookup_insert_ne.
  - unfold renderAndStore, storePage. destruct rendered; run; try exact Hgone.
    now rewrite lookup_insert_ne.
Qed.

End LookupFacts.

(** ** What a transition does to each part of the state *)

Section Frames.
Context `{Zlib} `{Platform}.
Implicit Types (st : Server).

Lemma makeEntry_complete template now : entry_complete (makeEntry template now).
Proof. repeat split. Qed.

Lemma sweep_lookup_Some now (cache : gmap string PageCacheEntry) k e :
  sweep now cache !! k = Some e -> cache !! k = Some e.
Proof.
  rewrite sweep_lookup. destruct (cache !! k) as [e'|]; [|discriminate].
  now destruct (is_expired now e').
Qed.

Lemma serveStaticFile_pageCache fs req filePath st :
  pageCache (snd (serveStaticFile fs req filePath st)) = pageCache st.
Proof.
  unfold serveStaticFile, loadFile, readAndCache. run.
  destruct (fs filePath) as [[m content| |]|]; try reflexivity.
  run. destruct (fileCache st !! filePath) as [ce|].
  - destruct (mtime ce =? m)%Z; [reflexivity|]. now destruct content.
  - now destruct content.
Qed.

Lemma setThemaHandler_frame env update req st :
  pageCache (snd (setThemaHandler env update req st)) = pageCache st
  /\ fileCache (snd (setThemaHandler env update req st)) = fileCache st
  /\ themes (snd (setThemaHandler env update req st)) = themes st.
Proof.
  unfold setThemaHandler.
  destruct (negb (authorized env req)); [now run|].
  destruct (JSON_parse (body req) ≫= get_prop "theme") as [theme|]; [|now run].
  destruct (negb (truthy theme)); [now run|]. run.
  destruct (negb (themeExists (themes st) theme)); [now run|].
  now destruct update.
Qed.

(** A transition leaves an entry of the page cache as it was, removes it,
    or writes an entry made by [makeEntry]. *)
Lemma step_pageCache st st' k e :
  step st st' ->
  pageCache st' !! k = Some e ->
  pageCache st !! k = Some e \/ exists template now, e = makeEntry template now.
Proof.
  intros Hstep Hk. destruct Hstep as
    [st|env req st|env now req st|env update req st|fs req filePath st
    |t1 t2 t3 rendered req st|fs env themesDir st st' _ Hre].
  - now left.
  - unfold cacheClearHandler, clearPageCache in Hk.
    destruct (negb (authorized env req)); run; [now left|].
    now rewrite lookup_empty in Hk.
  - unfold cacheStatsHandler, getCacheStats in Hk.
    destruct (negb (authorized env req)); run; now left.
  - destruct (setThemaHandler_frame env update req st) as [E _].
    rewrite E in Hk. now left.
  - rewrite serveStaticFile_pageCache in Hk. now left.
  - unfold cacheOrRender in Hk.
    destruct (JsString.has_extension (url req)); [now left|].
    unfold cleanExpiredPageCache, isPageCacheValid in Hk. run.
    set (c := sweep t1 (pageCache st)) in *.
    set (key := generateCacheKey _ _) in *.
    assert (c !! k = Some e -> pageCache st !! k = Some e \/
            exists template now, e = makeEntry template now) as Hswept.
    { intros Hc. left. exact (sweep_lookup_Some _ _ _ _ Hc). }
    assert (pageCache (snd (renderAndStore
              (or_empty (accept_encoding req)) key rendered t3
              (set_pageCache c st))) !! k = Some e ->
            pageCache st !! k = Some e \/
            exists template now, e = makeEntry template now) as Hmiss.
    { unfold renderAndStore, storePage. destruct rendered; run; auto.
      rewrite lookup_insert. destruct (decide (key = k)); [|auto].
      intros [= <-]. right. eauto. }
    destruct (c !! key) as [ce|].
    + destruct (t2 - timestamp ce <? PAGE_CACHE_DURATION)%Z; auto.
    + auto.
  - unfold restart in Hre. destruct (timers st); [discriminate|].
    destruct (discoverThemes fs env themesDir); [|discriminate].
    injection Hre as <-. now left.
Qed.

End Frames.

Section RegistryFacts.
Context `{Zlib} `{Platform}.
Implicit Types (st : Server) (registry : list (string * ThemeDescriptor)).

Lemma obj_set_Forall (P : string * ThemeDescriptor -> Prop) k d registry :
  P (k, d) -> Forall P registry -> Forall P (obj_set k d registry).
Proof.
  intros Hkd. induction 1 as [|[k' d'] rest Hhd Hrest IH]; cbn [obj_set].
  - now repeat constructor.
  - destruct (String.eqb k k'); constructor; auto.
Qed.

Lemma readTheme_namespace fs env folder path d :
  readTheme fs env folder path = Some d ->
  namespace d = JsString.remove_first "theme-" folder.
Proof.
  unfold readTheme. destruct (fs path) as [[m [bytes|]| |]|]; try discriminate.
  destruct (JSON_parse (utf8_decode bytes)) as [themeData|]; [|discriminate].
  cbn [mbind option_bind].
  destruct (get_prop "name" themeData); [|discriminate]. cbn [mbind option_bind].
  destruct (get_prop "description" themeData); [|discriminate]. cbn [mbind option_bind].
  destruct (get_prop "author" themeData); [|discriminate]. cbn [mbind option_bind].
  destruct (get_prop "version" themeData); [|discriminate]. cbn [mbind option_bind].
  destruct (get_prop "preview" themeData) as [preview|]; [|discriminate].
  cbn [mbind option_bind].
  destruct (convertible preview); [|discriminate]. cbn [mbind option_bind].
  now intros [= <-].
Qed.

(** The names the filter of line 215 keeps, when no [statSync] throws. *)
Lemma keepThemeFolders_In fs themesDir (names kept : list string) :
  keepThemeFolders fs themesDir names = Some kept ->
  forall folder,
    In folder kept
    <-> In folder names
        /\ JsString.startsWith "theme-" folder = true
        /\ isDirectory fs (path_join themesDir folder) = Some true.
Proof.
  revert kept. induction names as [|name names IH]; intros kept; cbn [keepThemeFolders].
  - intros [= <-] folder. cbn. tauto.
  - destruct (JsString.startsWith "theme-" name) eqn:Hpre.
    + destruct (isDirectory fs (path_join themesDir name)) as [directory|] eqn:Hdir;
        [|discriminate]. cbn [mbind option_bind].
      destruct (keepThemeFolders fs themesDir names) as [rest|]; [|discriminate].
      cbn [mbind option_bind]. intros [= <-] folder. specialize (IH rest eq_refl folder).
      destruct directory; cbn [In]; rewrite IH;
        intuition (subst; auto; congruence).
    + intros Hkept folder. rewrite (IH kept Hkept folder). cbn [In].
      intuition (subst; auto; congruence).
Qed.


Lemma loadTheme_discovered fs env themesDir acc folder :
  JsString.startsWith "theme-" folder = true ->
  JsString.includes "/" folder = false ->
  Forall discovered (fst acc) ->
  Forall discovered (fst (loadTheme fs env themesDir acc folder)).
Proof.
  intros Hpre Hplain Hacc. unfold loadTheme.
  destruct (fs (path_join (path_join themesDir folder) "theme.json")); [|exact Hacc].
  destruct (readTheme fs env folder _) as [d|] eqn:Hread; [|exact Hacc].
  cbn [fst]. apply obj_set_Forall; [|exact Hacc].
  exists folder. cbn [fst snd]. repeat split; auto.
  exact (readTheme_namespace _ _ _ _ _ Hread).
Qed.

Lemma discoverThemes_discovered fs env themesDir found :
  plain_names fs ->
  discoverThemes fs env themesDir = Some found ->
  Forall discovered (fst found).
Proof.
  intros Hplain. unfold discoverThemes, themeFolders.
  destruct (fs themesDir) as [[| names |]|] eqn:Hdir; try discriminate.
  destruct (keepThemeFolders fs themesDir names) as [kept|] eqn:Hkept; [|discriminate].
  cbn [mbind option_bind]. intros [= <-].
  assert (forall folder, In folder kept ->
          JsString.startsWith "theme-" folder = true
          /\ JsString.includes "/" folder = false) as Hfolders.
  { intros folder Hin. apply (keepThemeFolders_In _ _ _ _ Hkept) in Hin as (Hin & Hpre & _).
    split; [exact Hpre|]. exact (Hplain _ _ _ Hdir Hin). }
  assert (Forall discovered (fst (([] : list (string * ThemeDescriptor)), ([] : list LogLine))))
    as Hstart by constructor.
  revert Hfolders Hstart. generalize kept.
  generalize (([] : list (string * ThemeDescriptor)), ([] : list LogLine)).
  intros acc folders. revert acc.
  induction folders as [|folder folders IH]; intros acc Hfolders Hacc; [exact Hacc|].
  cbn [fold_left]. apply IH.
  - intros f Hf. apply Hfolders. now right.
  - destruct (Hfolders folder (or_introl eq_refl)) as [Hpre Hpl].
    now apply loadTheme_discovered.
Qed.

Lemma serveStaticFile_themes fs req filePath st :
  themes (snd (serveStaticFile fs req filePath st)) = themes st.
Proof.
  unfold serveStaticFile, loadFile, readAndCache. run.
  destruct (fs filePath) as [[m content| |]|]; try reflexivity.
  run. destruct (fileCache st !! filePath) as [ce|].
  - destruct (mtime ce =? m)%Z; [reflexivity|]. now destruct content.
  - now destruct content.
Qed.

Lemma cacheOrRender_frame t1 t2 t3 rendered req st :
  themes (snd (cacheOrRender t1 t2 t3 rendered req st)) = themes st
  /\ fileCache (snd (cacheOrRender t1 t2 t3 rendered req st)) = fileCache st
  /\ timers (snd (cacheOrRender t1 t2 t3 rendered req st)) = timers st.
Proof.
  unfold cacheOrRender. destruct (JsString.has_extension (url req)); [now run|].
  unfold cleanExpiredPageCache, isPageCacheValid. run.
  set (c := sweep t1 (pageCache st)). set (key := generateCacheKey _ _).
  assert (forall (P : Server -> Prop), P (set_pageCache c st) ->
          (forall tpl, P (set_pageCache (<[key := makeEntry tpl t3]> c) st)) ->
          P (snd (renderAndStore (or_empty (accept_encoding req)) key rendered t3
                    (set_pageCache c st)))) as Hmiss.
  { intros P Hc Hins. unfold renderAndStore, storePage.
    destruct rendered; run; [exact Hc | exact Hc | apply Hins]. }
  destruct (c !! key) as [ce|].
  - destruct (t2 - timestamp ce <? PAGE_CACHE_DURATION)%Z; [now run|].
    apply (Hmiss (fun s => themes s = themes st /\ fileCache s = fileCache st
                           /\ timers s = timers st)); now run.
  - apply (Hmiss (fun s => themes s = themes st /\ fileCache s = fileCache st
                           /\ timers s = timers st)); now run.
Qed.

(** Only a restart replaces the registry, and by a discovered one. *)
Lemma step_themes st st' :
  step st st' -> Forall discovered (themes st) -> Forall discovered (themes st').
Proof.
  intros Hstep Hwf. destruct Hstep as
    [st|env req st|env now req st|env update req st|fs req filePath st
    |t1 t2 t3 rendered req st|fs env themesDir st st' Hplain Hre].
  - exact Hwf.
  - unfold cacheClearHandler, clearPageCache.
    destruct (negb (authorized env req)); run; exact Hwf.
  - unfold cacheStatsHandler, getCacheStats.
    destruct (negb (authorized env req)); run; exact Hwf.
  - destruct (setThemaHandler_frame env update req st) as (_ & _ & E). now rewrite E.
  - now rewrite serveStaticFile_themes.
  - destruct (cacheOrRender_frame t1 t2 t3 rendered req st) as (E & _). now rewrite E.
  - unfold restart in Hre. destruct (timers st); [discriminate|].
    destruct (discoverThemes fs env themesDir) as [found|] eqn:Hfound; [|discriminate].
    injection Hre as <-. cbn [themes].
    exact (discoverThemes_discovered _ _ _ _ Hplain Hfound).
Qed.

Lemma serveStaticFile_fileCache fs req filePath st p ce :
  fileCache (snd (serveStaticFile fs req filePath st)) !! p = Some ce ->
  fileCache st !! p = Some ce \/ tagged ce.
Proof.
  unfold serveStaticFile, loadFile, readAndCache. run.
  destruct (fs filePath) as [[m content| |]|]; auto.
  run. destruct (fileCache st !! filePath) as [old|].
  - destruct (mtime old =? m)%Z; [auto|]. destruct content as [buf|]; run; auto.
    rewrite lookup_insert. destruct (decide (filePath = p)); [|auto].
    intros [= <-]. now right.
  - destruct content as [buf|]; run; auto.
    rewrite lookup_insert. destruct (decide (filePath = p)); [|auto].
    intros [= <-]. now right.
Qed.

Lemma step_fileCache st st' p ce :
  step st st' ->
  fileCache st' !! p = Some ce ->
  fileCache st !! p = Some ce \/ tagged ce.
Proof.
  intros Hstep Hp. destruct Hstep as
    [st|env req st|env now req st|env update req st|fs req filePath st
    |t1 t2 t3 rendered req st|fs env themesDir st st' _ Hre].
  - now left.
  - unfold cacheClearHandler, clearPageCache in Hp.
    destruct (negb (authorized env req)); run; now left.
  - unfold cacheStatsHandler, getCacheStats in Hp.
    destruct (negb (authorized env req)); run; now left.
  - destruct (setThemaHandler_frame env update req st) as (_ & E & _).
    rewrite E in Hp. now left.
  - exact (serveStaticFile_fileCache _ _ _ _ _ _ Hp).
  - destruct (cacheOrRender_frame t1 t2 t3 rendered req st) as (_ & E & _).
    rewrite E in Hp. now left.
  - unfold restart in Hre. destruct (timers st); [discriminate|].
    destruct (discoverThemes fs env themesDir); [|discriminate].
    injection Hre as <-. now left.
Qed.

(** What holds in every state of a started server. *)
Lemma reachable_invariant st :
  reachable st ->
  Forall discovered (themes st)
  /\ (forall k e, pageCache st !! k = Some e -> exists template now, e = makeEntry template now)
  /\ (forall p ce, fileCache st !! p = Some ce -> tagged ce).
Proof.
  intros (fs & env & themesDir & st0 & Hplain & Hboot & Hrun).
  pattern st. eapply (rtc_ind_r _ st0); [| |exact Hrun]; cbv beta.
  - unfold bootstrap in Hboot.
    destruct (discoverThemes fs env themesDir) as [found|] eqn:Hfound; [|discriminate].
    injection Hboot as <-. cbn [themes pageCache fileCache]. split; [|split].
    + exact (discoverThemes_discovered _ _ _ _ Hplain Hfound).
    + intros k e. rewrite lookup_empty. discriminate.
    + intros p ce. rewrite lookup_empty. discriminate.
  - intros st1 st2 _ Hstep (Hthemes & Hpages & Hfiles). split; [|split].
    + exact (step_themes _ _ Hstep Hthemes).
    + intros k e Hk. destruct (step_pageCache _ _ _ _ Hstep Hk) as [Hold|Hnew].
      * exact (Hpages _ _ Hold).
      * exact Hnew.
    + intros p ce Hp. destruct (step_fileCache _ _ _ _ Hstep Hp) as [Hold|Hnew].
      * exact (Hfiles _ _ Hold).
      * exact Hnew.
Qed.

End RegistryFacts.

(** * The properties of the design document *)

(** ** Page Render Cache *)

(** C1, at the input where the code departs from it: the entry written for
    [GET /] at time 0 is present 30 minutes later and its age does not
    exceed the duration (the sweep's own test says so and keeps it), yet
    [isPageCacheValid] answers [false] for its key. Lookup removes nothing. *)
Theorem C1_lookup_misses_entry_of_age_ttl :
  let st := Sample.warmed in
  let now := PAGE_CACHE_DURATION in
  exists e,
    pageCache st !! "/:desktop" = Some e
    /\ (now - timestamp e = PAGE_CACHE_DURATION)%Z
    /\ is_expired now e = false
    /\ fst (isPageCacheValid "/:desktop" now st) = false
    /\ pageCache (snd (isPageCacheValid "/:desktop" now st)) !! "/:desktop" = Some e
    /\ pageCache (snd (cleanExpiredPageCache now st)) !! "/:desktop" = Some e.
Proof.
  cbv zeta. eexists. split; [vm_compute; reflexivity|].
  repeat split; vm_compute; reflexivity.
Qed.

(** C2 as stated fails: with one entry in the cache, [clearPageCache]
    returns [undefined], not the number 1, and the answer of
    [POST /cache/clear] is the fixed object with [success] and [message],
    which holds no count. *)
Lemma C2_clear_returns_no_count :
  let st := Sample.warmed in
  let req := Sample.admin "POST" "/cache/clear" "" in
  size (pageCache st) = 1%nat
  /\ fst (clearPageCache st) <> num_of_nat (size (pageCache st))
  /\ resBody (fst (cacheClearHandler Sample.env req st))
     = Json (JObj [("success", JBool true);
                   ("message", JStr "Cache cleared successfully")])
  /\ resBody (fst (cacheClearHandler Sample.env req st))
     = resBody (fst (cacheClearHandler Sample.env req Sample.started)).
Proof.
  cbv zeta. split; [vm_compute; reflexivity|].
  split; [vm_compute; discriminate|].
  split; vm_compute; reflexivity.
Qed.

(** C2, amended: for every cache state, an authorised [POST /cache/clear]
    writes to the console the number of entries present immediately before
    the call, answers 200 with the fixed object, and afterwards the cache is
    empty, so every lookup, for every key and clock, is a miss. *)
Theorem C2_clear_logs_count_and_empties (env : Env) (req : Request) (st : Server) :
  authorized env req = true ->
  let res := fst (cacheClearHandler env req st) in
  let st' := snd (cacheClearHandler env req st) in
  console st' = (console st ++ [LogCacheCleared (size (pageCache st))])%list
  /\ statusCode res = 200%Z
  /\ resBody res = Json (JObj [("success", JBool true);
                               ("message", JStr "Cache cleared successfully")])
  /\ pageCache st' = ∅
  /\ forall key now, fst (isPageCacheValid key now st') = false.
Proof.
  intros Hauth. unfold cacheClearHandler, clearPageCache. rewrite Hauth.
  cbn [negb]. run. split; [reflexivity|]. split; [reflexivity|].
  split; [reflexivity|]. split; [reflexivity|].
  intros key now. unfold isPageCacheValid. run. now rewrite lookup_empty.
Qed.

(** The sample server with one cached page, cleared by its administrator. *)
Lemma C2_clear_logs_count_and_empties_witness :
  let st' := snd (cacheClearHandler Sample.env (Sample.admin "POST" "/cache/clear" "")
                    Sample.warmed) in
  console st' = (console Sample.warmed ++ [LogCacheCleared 1])%list
  /\ fst (isPageCacheValid "/:desktop" 0 st') = false.
Proof.
  destruct (C2_clear_logs_count_and_empties Sample.env
              (Sample.admin "POST" "/cache/clear" "") Sample.warmed eq_refl)
    as (Hlog & _ & _ & _ & Hmiss).
  split; [exact Hlog | exact (Hmiss "/:desktop" 0%Z)].
Defined.

(** C3: for every key and document, a store followed by a lookup at the
    same clock reading is a hit, the entry found holds the document as its
    uncompressed variant, and a cycle for that key at that reading answers
    from this entry. *)
Theorem C3_store_then_lookup `{Zlib} (key doc : string) (now : Z) (st : Server) :
  let st' := snd (storePage key doc now st) in
  fst (isPageCacheValid key now st') = true
  /\ (exists e, pageCache st' !! key = Some e
                /\ uncompressed (compressedVersions e) = doc
                /\ forall req rendered t_store,
                     JsString.has_extension (url req) = false ->
                     generateCacheKey (url req) (Some (or_empty (user_agent req))) = key ->
                     fst (cacheOrRender now now t_store rendered req st')
                     = serveCached (or_empty (accept_encoding req)) e)
  /\ serveCached "" (makeEntry doc now)
     = endWith (Payload (Text doc)) (replayHeaders responseHeaders freshResponse).
Proof.
  cbv zeta. unfold storePage, isPageCacheValid. run. rewrite lookup_insert_eq.
  cbn [timestamp makeEntry]. rewrite Z.sub_diag. split; [reflexivity|].
  split; [|reflexivity].
  exists (makeEntry doc now). split; [reflexivity|]. split; [reflexivity|].
  intros req rendered t_store Hext Hkey. unfold cacheOrRender. rewrite Hext, Hkey.
  unfold cleanExpiredPageCache, isPageCacheValid. run.
  rewrite sweep_lookup, lookup_insert_eq. unfold is_expired.
  cbn [timestamp makeEntry]. rewrite Z.sub_diag.
  change (0 >? PAGE_CACHE_DURATION)%Z with false. cbv iota.
  cbn [timestamp makeEntry]. rewrite Z.sub_diag. reflexivity.
Qed.

(** A page stored at time 7 and asked for at time 7, the renderer being down. *)
Lemma C3_store_then_lookup_witness :
  fst (cacheOrRender (H := Sample.zlib) 7 7 9 (RenderThrows "down" false)
         (Sample.request "GET" "/about")
         (snd (storePage (H := Sample.zlib) "/about:desktop" "<html>about</html>" 7
                 Sample.started)))
  = endWith (Payload (Text "<html>about</html>"))
      (replayHeaders responseHeaders freshResponse).
Proof.
  destruct (C3_store_then_lookup (H := Sample.zlib) "/about:desktop" "<html>about</html>" 7
              Sample.started) as (_ & (e & He & _ & Hcycle) & _).
  rewrite (Hcycle (Sample.request "GET" "/about") (RenderThrows "down" false) 9%Z
             eq_refl eq_refl).
  unfold storePage in He. run. rewrite lookup_insert_eq in He.
  injection He as <-. reflexivity.
Defined.

(** [reachable] is inhabited: the sample server, before and after its first
    rendered page. *)
Lemma sample_plain_names : plain_names Sample.fs.
Proof.
  intros p names folder. unfold Sample.fs.
  repeat (destruct (String.eqb p _);
          [intros [= <-] Hin; cbn in Hin;
           repeat (destruct Hin as [<-|Hin]; [reflexivity|]); destruct Hin|]).
  discriminate.
Qed.

Lemma sample_started_reachable :
  reachable (H := Sample.zlib) (H0 := Sample.platform) Sample.started.
Proof.
  exists Sample.fs, Sample.env, "/srv/src", Sample.started.
  split; [exact sample_plain_names|]. split; [vm_compute; reflexivity | apply rtc_refl].
Qed.

Lemma sample_warmed_reachable :
  reachable (H := Sample.zlib) (H0 := Sample.platform) Sample.warmed.
Proof.
  exists Sample.fs, Sample.env, "/srv/src", Sample.started.
  split; [exact sample_plain_names|]. split; [vm_compute; reflexivity|].
  apply rtc_once. apply (step_cycle 0 0 0).
Qed.

(** C4: a store writes an entry whose three variants are the rendered
    document, its gzip compression and its brotli compression; and in every
    state a started server can reach, every entry of the page cache has all
    three, the uncompressed one being its document. *)
Theorem C4_entries_hold_all_variants `{Zlib} `{Platform} :
  (forall key template now st,
      exists e, pageCache (snd (storePage key template now st)) !! key = Some e
                /\ html e = template
                /\ entry_complete e)
  /\ (forall st k e,
        reachable st -> pageCache st !! k = Some e ->
        entry_complete e
        /\ is_Some (gzip (compressedVersions e))
        /\ is_Some (br (compressedVersions e))).
Proof.
  split.
  - intros key template now st. exists (makeEntry template now).
    unfold storePage. run. rewrite lookup_insert_eq.
    split; [reflexivity|]. split; [reflexivity | apply makeEntry_complete].
  - intros st k e Hreach Hk.
    destruct (reachable_invariant st Hreach) as (_ & Hpages & _).
    destruct (Hpages k e Hk) as (template & now & ->).
    split; [apply makeEntry_complete|]. split; eexists; reflexivity.
Qed.

(** The entry of the sample server after its first rendered page. *)
Lemma C4_entries_hold_all_variants_witness :
  exists e, pageCache Sample.warmed !! "/:desktop" = Some e
            /\ entry_complete (H := Sample.zlib) e.
Proof.
  eexists. split; [vm_compute; reflexivity|].
  refine (proj1 (proj2 (C4_entries_hold_all_variants (H := Sample.zlib) (H0 := Sample.platform))
            Sample.warmed "/:desktop" _ sample_warmed_reachable _)).
  vm_compute; reflexivity.
Defined.

(** C10: an entry whose age at the query is exactly the duration is a miss
    for lookup, is kept by the sweep, and is counted by the statistics as
    valid (one more valid entry than without it, no more expired entry). *)
Theorem C10_age_equal_to_ttl (st : Server) (key : string) (e : PageCacheEntry) (now : Z) :
  pageCache st !! key = Some e ->
  (now - timestamp e = PAGE_CACHE_DURATION)%Z ->
  let without := set_pageCache (delete key (pageCache st)) st in
  fst (isPageCacheValid key now st) = false
  /\ pageCache (snd (cleanExpiredPageCache now st)) !! key = Some e
  /\ valid (fst (getCacheStats now st)) = S (valid (fst (getCacheStats now without)))
  /\ expired (fst (getCacheStats now st)) = expired (fst (getCacheStats now without)).
Proof.
  intros Hkey Hage. cbv zeta.
  assert (is_expired now e = false) as Hexp.
  { unfold is_expired. rewrite Hage. reflexivity. }
  unfold isPageCacheValid, cleanExpiredPageCache, getCacheStats. run.
  rewrite Hkey, Hage, sweep_lookup, Hkey, Hexp, !fold_stats.
  cbn [fst snd valid expired Nat.add].
  split; [reflexivity|]. split; [reflexivity|].
  pose proof (map_to_list_delete (pageCache st) key e Hkey) as Hperm.
  rewrite <- (count_perm _ _ _ Hperm), <- (count_perm (is_expired now) _ _ Hperm).
  unfold count. cbn [List.filter snd]. rewrite Hexp. cbn [negb length]. split; reflexivity.
Qed.

(** The page rendered at time 0, seen 30 minutes later. *)
Lemma C10_age_equal_to_ttl_witness :
  fst (isPageCacheValid "/:desktop" 1800000 Sample.warmed) = false
  /\ valid (fst (getCacheStats 1800000 Sample.warmed)) = 1%nat.
Proof.
  destruct (C10_age_equal_to_ttl Sample.warmed "/:desktop"
              (makeEntry (H := Sample.zlib) "<html>home</html>" 0) 1800000)
    as (Hmiss & _ & Hvalid & _).
  - vm_compute; reflexivity.
  - reflexivity.
  - split; [exact Hmiss|]. rewrite Hvalid. vm_compute; reflexivity.
Defined.

(** ** Cache keys *)

Lemma isMobile_cases (userAgent : option string) :
  isMobile userAgent = "mobile" \/ isMobile userAgent = "desktop".
Proof.
  unfold isMobile. destruct userAgent as [ua|]; [|now right].
  destruct (JsString.includes "mobile" (JsString.toLowerCase ua)); auto.
Qed.

Lemma mobile_desktop_keys_differ (s p : string) : s +:+ ":mobile" <> p +:+ ":desktop".
Proof.
  intros E. apply (f_equal list_ascii_of_string) in E. rewrite !list_of_append in E.
  apply (f_equal (@rev ascii)) in E. rewrite !rev_app_distr in E. discriminate E.
Qed.

(** C6: the key is a function of the route and the device class, and an
    injective one: two requests get the same key exactly when they have the
    same route and the same class, so the mobile key and the desktop key of
    a route, or of any two routes, are never equal. *)
Theorem C6_cache_key_separates_device_classes (url url' : string) (ua ua' : option string) :
  generateCacheKey url ua = url +:+ ":" +:+ isMobile ua
  /\ (isMobile ua = "mobile" \/ isMobile ua = "desktop")
  /\ (generateCacheKey url ua = generateCacheKey url' ua'
      <-> url = url' /\ isMobile ua = isMobile ua')
  /\ url +:+ ":mobile" <> url' +:+ ":desktop".
Proof.
  split; [reflexivity|]. split; [apply isMobile_cases|].
  split; [|apply mobile_desktop_keys_differ].
  unfold generateCacheKey. split.
  - intros E.
    destruct (isMobile_cases ua) as [Ha|Ha]; rewrite Ha in *;
      destruct (isMobile_cases ua') as [Hb|Hb]; rewrite Hb in *.
    + split; [exact (append_inv_tail _ _ _ E) | reflexivity].
    + destruct (mobile_desktop_keys_differ _ _ E).
    + symmetry in E. destruct (mobile_desktop_keys_differ _ _ E).
    + split; [exact (append_inv_tail _ _ _ E) | reflexivity].
  - intros [-> ->]. reflexivity.
Qed.

(** ** Static files *)

Section ConditionalGet.
Context `{Zlib} `{Platform}.

(** The answer for a file whose bytes and tag are known: 304 without a body
    when the conditional header is the tag, else 200 with the tag and the
    bytes, compressed or not. *)
Lemma respondFile_conditional (req : Request) (filePath : string) (buf : Buffer) (tag : string) :
  tag <> "" ->
  let res := respondFile req filePath buf tag in
  (if_none_match req = Some tag ->
     statusCode res = 304%Z /\ resBody res = NoBody /\ resHeaders res = [("ETag", tag)])
  /\ (if_none_match req <> Some tag ->
      statusCode res = 200%Z
      /\ header "ETag" res = Some tag
      /\ (resBody res = Payload (Bytes buf)
          \/ resBody res
             = Payload (Bytes (fst (compressFile buf (Some (or_empty (accept_encoding req)))))))).
Proof.
  intros Htag. cbv zeta. unfold respondFile. split.
  - intros ->. cbn [or_empty default from_option id]. rewrite String.eqb_refl.
    repeat split.
  - intros Hne.
    assert (String.eqb (or_empty (if_none_match req)) tag = false) as ->.
    { apply String.eqb_neq. destruct (if_none_match req) as [v|]; cbn.
      - intros ->. now apply Hne.
      - intros <-. now apply Htag. }
    destruct (existsb _ compressibleTypes).
    + destruct (snd (compressFile buf _)) as [enc|].
      * destruct (String.eqb enc ""); (split; [reflexivity|]); (split; [reflexivity|]);
          now right.
      * split; [reflexivity|]. split; [reflexivity|]. now right.
    + split; [reflexivity|]. split; [reflexivity|]. now left.
Qed.

End ConditionalGet.

(** C7: a regular, readable file is served with the entity tag the file
    cache holds for it after the call. When [If-None-Match] is that tag the
    answer is 304 with the tag and without a body; otherwise it is 200 with
    the tag in [ETag] and the bytes of the file, compressed or not, as the
    body. *)
Theorem C7_conditional_get `{Zlib} `{Platform} (fs : FileSystem) (req : Request)
    (filePath : string) (st : Server) (m : Z) (bytes : Buffer) :
  reachable st ->
  (forall b, md5_hex b <> "") ->
  fs filePath = Some (FsFile m (Some bytes)) ->
  exists res ce,
    fst (serveStaticFile fs req filePath st) = Some res
    /\ fileCache (snd (serveStaticFile fs req filePath st)) !! filePath = Some ce
    /\ mtime ce = m
    /\ (if_none_match req = Some (etag ce) ->
          statusCode res = 304%Z /\ resBody res = NoBody
          /\ resHeaders res = [("ETag", etag ce)])
    /\ (if_none_match req <> Some (etag ce) ->
          statusCode res = 200%Z
          /\ header "ETag" res = Some (etag ce)
          /\ (resBody res = Payload (Bytes (buffer ce))
              \/ resBody res
                 = Payload (Bytes (fst (compressFile (buffer ce)
                                          (Some (or_empty (accept_encoding req)))))))).
Proof.
  intros Hreach Hmd5 Hfile.
  destruct (reachable_invariant st Hreach) as (_ & _ & Hfiles).
  unfold serveStaticFile, loadFile, readAndCache. rewrite Hfile. run.
  destruct (fileCache st !! filePath) as [old|] eqn:Hold.
  - destruct (mtime old =? m)%Z eqn:Hm.
    + exists (respondFile req filePath (buffer old) (etag old)), old. run.
      split; [reflexivity|]. split; [exact Hold|]. split; [now apply Z.eqb_eq|].
      apply respondFile_conditional. rewrite (Hfiles _ _ Hold). apply Hmd5.
    + eexists (respondFile req filePath bytes (md5_hex bytes)), _. run.
      split; [reflexivity|]. split; [apply lookup_insert_eq|]. split; [reflexivity|].
      apply respondFile_conditional, Hmd5.
  - eexists (respondFile req filePath bytes (md5_hex bytes)), _. run.
    split; [reflexivity|]. split; [apply lookup_insert_eq|]. split; [reflexivity|].
    apply respondFile_conditional, Hmd5.
Qed.

Lemma sample_digest_nonempty (b : Buffer) : md5_hex (Platform := Sample.platform) b <> "".
Proof. discriminate. Qed.

(** The stylesheet of the sample server, asked for with and without its tag. *)
Lemma C7_conditional_get_witness :
  let conditional :=
    {| url := "/assets/app.css"; method := "GET"; accept_encoding := Some "gzip";
       if_none_match := Some "d41d8cd98f00b204e9800998ecf8427e";
       user_agent := None; authorization := None; body := "" |} in
  let serve req :=
    fst (serveStaticFile (H := Sample.zlib) (H0 := Sample.platform) Sample.fs req
           "/srv/dist/assets/app.css" Sample.started) in
  (statusCode <$> serve conditional) = Some 304%Z
  /\ (resBody <$> serve conditional) = Some NoBody
  /\ (statusCode <$> serve (Sample.request "GET" "/assets/app.css")) = Some 200%Z.
Proof.
  cbv zeta.
  destruct (C7_conditional_get (H := Sample.zlib) (H0 := Sample.platform) Sample.fs
              {| url := "/assets/app.css"; method := "GET"; accept_encoding := Some "gzip";
                 if_none_match := Some "d41d8cd98f00b204e9800998ecf8427e";
                 user_agent := None; authorization := None; body := "" |}
              "/srv/dist/assets/app.css" Sample.started 2000
              (list_byte_of_string "body{}")
              sample_started_reachable sample_digest_nonempty eq_refl)
    as (res & ce & Hres & Hce & _ & Hhit & _).
  destruct (C7_conditional_get (H := Sample.zlib) (H0 := Sample.platform) Sample.fs
              (Sample.request "GET" "/assets/app.css")
              "/srv/dist/assets/app.css" Sample.started 2000
              (list_byte_of_string "body{}")
              sample_started_reachable sample_digest_nonempty eq_refl)
    as (res' & ce' & Hres' & Hce' & _ & _ & Hmiss).
  rewrite Hres, Hres'. cbn [fmap option_fmap option_map].
  assert (etag ce = "d41d8cd98f00b204e9800998ecf8427e") as Htag.
  { vm_compute in Hce. now injection Hce as <-. }
  assert (etag ce' = "d41d8cd98f00b204e9800998ecf8427e") as Htag'.
  { vm_compute in Hce'. now injection Hce' as <-. }
  rewrite Htag in Hhit. rewrite Htag' in Hmiss.
  destruct (Hhit eq_refl) as (-> & -> & _).
  destruct Hmiss as (-> & _); [discriminate|].
  repeat split.
Defined.

(** ** Theme switching *)

Section ThemeLookup.
Implicit Types (name folder : string) (registry : list (string * ThemeDescriptor)).

Lemma remove_first_theme name :
  JsString.remove_first "theme-" ("theme-" +:+ name) = name.
Proof.
  change ("theme-" +:+ name)
    with (String "t" (String "h" (String "e" (String "m" (String "e" (String "-" name)))))).
  cbn [JsString.remove_first].
  change (String "t" (String "h" (String "e" (String "m" (String "e" (String "-" name))))))
    with ("theme-" +:+ name).
  rewrite prefix_append. reflexivity.
Qed.

Lemma includes_slash_theme name :
  JsString.includes "/" ("theme-" +:+ name) = false -> JsString.includes "/" name = false.
Proof.
  change ("theme-" +:+ name)
    with (String "t" (String "h" (String "e" (String "m" (String "e" (String "-" name)))))).
  intros E. do 6 apply includes_head in E. exact E.
Qed.

(** The expression of line 326 on a key written by discovery: the capture
    is the folder name without its prefix, and there is no match when
    nothing follows the prefix. *)
Lemma theme_match_key name :
  JsString.includes "/" name = false ->
  JsString.theme_match ("./" +:+ ("theme-" +:+ name) +:+ "/theme.json")
  = if String.eqb name "" then None else Some name.
Proof.
  intros Hplain.
  change ("./" +:+ ("theme-" +:+ name) +:+ "/theme.json")
    with (String "." (String "/" (String "t" (String "h" (String "e" (String "m"
            (String "e" (String "-" (name +:+ "/" +:+ "theme.json"))))))))).
  cbn [JsString.theme_match]. unfold JsString.theme_match_here at 1.
  cbn [JsString.strip_prefix Ascii.eqb Bool.eqb].
  rewrite (span_no_slash_plain name "theme.json" Hplain).
  destruct (String.eqb_spec name "") as [->|Hname]; [reflexivity|].
  reflexivity.
Qed.

(** On a discovered registry the test of the handler admits registered
    themes only. *)
Lemma themeExists_registered registry theme :
  Forall discovered registry ->
  truthy theme = true ->
  themeExists registry theme = true ->
  registered registry theme.
Proof.
  intros Hwf Htruthy Hex. unfold themeExists in Hex.
  apply existsb_exists in Hex as [[k d] [Hin Hmatch]]. cbn [fst] in Hmatch.
  destruct theme as [| | | |t| |]; try discriminate Hmatch.
  cbn [strict_eq_string] in Hmatch. apply String.eqb_eq in Hmatch.
  cbn [truthy] in Htruthy. apply negb_true_iff, String.eqb_neq in Htruthy.
  rewrite Forall_forall in Hwf.
  destruct (Hwf _ (proj2 (list_elem_of_In _ _) Hin))
    as (folder & Hkey & Hpre & Hplain & Hns). cbn [fst snd] in *.
  apply prefix_split in Hpre as [name ->].
  apply includes_slash_theme in Hplain.
  rewrite Hkey, (theme_match_key name Hplain) in Hmatch.
  rewrite remove_first_theme in Hns.
  exists k, d. split; [exact Hin|].
  destruct (String.eqb name ""); cbn in Hmatch; [congruence|].
  now rewrite Hns, Hmatch.
Qed.

End ThemeLookup.

(** C9: on a started server, an authorised [POST /set-thema] whose body
    names a theme that no descriptor of the registry has as its namespace is
    answered 404; a body that does not parse, or has no readable or no
    truthy [theme], is answered 400; in both cases no timer is added and the
    registry is the same afterwards. *)
Theorem C9_unknown_theme_is_rejected `{Zlib} `{Platform} (env : Env)
    (update : SettingsUpdate) (req : Request) (st : Server) :
  reachable st ->
  authorized env req = true ->
  let res := fst (setThemaHandler env update req st) in
  let st' := snd (setThemaHandler env update req st) in
  (forall theme,
      JSON_parse (body req) ≫= get_prop "theme" = Some theme ->
      truthy theme = true ->
      ~ registered (themes st) theme ->
      statusCode res = 404%Z /\ timers st' = timers st /\ themes st' = themes st)
  /\ (JSON_parse (body req) = None
      \/ (exists v, JSON_parse (body req) = Some v
                    /\ (get_prop "theme" v = None
                        \/ exists theme, get_prop "theme" v = Some theme
                                         /\ truthy theme = false)) ->
      statusCode res = 400%Z /\ timers st' = timers st /\ themes st' = themes st).
Proof.
  intros Hreach Hauth. cbv zeta.
  destruct (reachable_invariant st Hreach) as (Hwf & _ & _).
  unfold setThemaHandler. rewrite Hauth. cbn [negb]. split.
  - intros theme -> Htruthy Hnot. rewrite Htruthy. cbn [negb]. run.
    destruct (themeExists (themes st) theme) eqn:Hex.
    + destruct Hnot. exact (themeExists_registered _ _ Hwf Htruthy Hex).
    + cbn [negb]. repeat split.
  - intros [->|(v & -> & [Hprop|(theme & Hprop & Hfalsy)])]; cbn [mbind option_bind].
    + repeat split.
    + rewrite Hprop. repeat split.
    + rewrite Hprop, Hfalsy. repeat split.
Qed.

(** The sample server asked for an unknown theme, and with an empty object. *)
Lemma C9_unknown_theme_is_rejected_witness :
  let req := Sample.admin "POST" "/set-thema" "{'theme':'unknown-namespace'}" in
  let run := setThemaHandler (H := Sample.platform) Sample.env UpdateDone req Sample.started in
  statusCode (fst run) = 404%Z
  /\ timers (snd run) = []
  /\ themes (snd run) = themes Sample.started
  /\ statusCode (fst (setThemaHandler (H := Sample.platform) Sample.env UpdateDone
                        (Sample.admin "POST" "/set-thema" "{}") Sample.started)) = 400%Z.
Proof.
  cbv zeta.
  destruct (C9_unknown_theme_is_rejected (H := Sample.zlib) (H0 := Sample.platform)
              Sample.env UpdateDone
              (Sample.admin "POST" "/set-thema" "{'theme':'unknown-namespace'}")
              Sample.started sample_started_reachable eq_refl) as (Hunknown & _).
  destruct (Hunknown (JStr "unknown-namespace") eq_refl eq_refl) as (Hcode & Htimers & Hthemes).
  { intros (k & d & Hin & Heq). vm_compute in Hin.
    destruct Hin as [[= <- <-]|[]]. discriminate Heq. }
  destruct (C9_unknown_theme_is_rejected (H := Sample.zlib) (H0 := Sample.platform)
              Sample.env UpdateDone (Sample.admin "POST" "/set-thema" "{}")
              Sample.started sample_started_reachable eq_refl) as (_ & Hbad).
  destruct Hbad as (Hcode' & _).
  { right. exists (JObj []). split; [reflexivity|]. right.
    exists JUndefined. split; reflexivity. }
  split; [exact Hcode|]. split; [exact Htimers|]. split; [exact Hthemes | exact Hcode'].
Defined.

(** ** The model on concrete requests *)

Example includes_br : JsString.includes "br" "gzip, deflate, br" = true.
Proof. reflexivity. Qed.

Example includes_none : JsString.includes "gzip" "identity" = false.
Proof. reflexivity. Qed.

Example lower_user_agent :
  JsString.toLowerCase "Mozilla/5.0 (iPhone) Mobile/15E148"
  = "mozilla/5.0 (iphone) mobile/15e148".
Proof. reflexivity. Qed.

Example theme_match_default :
  JsString.theme_match "./theme-default/theme.json" = Some "default".
Proof. reflexivity. Qed.

Example theme_match_bare_prefix : JsString.theme_match "./theme-/theme.json" = None.
Proof. reflexivity. Qed.

Example has_extension_css : JsString.has_extension "/assets/app.css" = true.
Proof. reflexivity. Qed.

Example has_extension_route : JsString.has_extension "/post/hello" = false.
Proof. reflexivity. Qed.

Example key_default_device : generateCacheKey "/" (Some "") = "/:desktop".
Proof. reflexivity. Qed.

Example key_phone :
  generateCacheKey "/" (Some "Mozilla/5.0 (iPhone) Mobile/15E148") = "/:mobile".
Proof. reflexivity. Qed.

Example sample_registry :
  map (fun kv => (fst kv, namespace (snd kv))) (themes Sample.started)
  = [("./theme-default/theme.json", "default")].
Proof. vm_compute. reflexivity. Qed.

Example first_render_with_gzip :
  let req := {| url := "/"; method := "GET"; accept_encoding := Some "gzip";
                if_none_match := None; user_agent := None; authorization := None;
                body := "" |} in
  let run := cacheOrRender (H := Sample.zlib) 0 0 0 (RenderPage "<html>home</html>") req
               Sample.started in
  header "Content-Encoding" (fst run) = Some "gzip"
  /\ size (pageCache (snd run)) = 1%nat
  /\ pageCache (snd run) !! "/:desktop"
     = Some (makeEntry (H := Sample.zlib) "<html>home</html>" 0).
Proof. cbv zeta. repeat split; vm_compute; reflexivity. Qed.

Example unauthorized_clear_keeps_cache :
  let run := cacheClearHandler Sample.env (Sample.request "POST" "/cache/clear")
               Sample.warmed in
  statusCode (fst run) = 401%Z /\ snd run = Sample.warmed.
Proof. split; reflexivity. Qed.

(** * Further properties of the code *)

(** ** The sweep *)

Section SweepFacts.
Implicit Types (cache : gmap string PageCacheEntry) (now : Z) (key : string).

Lemma count_ext (f g : PageCacheEntry -> bool) (l : list (string * PageCacheEntry)) :
  (forall e, f e = g e) -> count f l = count g l.
Proof.
  intros Hfg. unfold count. induction l as [|[k e] l IH]; [reflexivity|].
  cbn [List.filter snd]. rewrite Hfg. destruct (g e); cbn [length]; now rewrite IH.
Qed.

Lemma count_cons (f : PageCacheEntry -> bool) k e (l : list (string * PageCacheEntry)) :
  count f ((k, e) :: l) = ((if f e then 1 else 0) + count f l)%nat.
Proof. unfold count. cbn [List.filter snd]. now destruct (f e). Qed.

Lemma count_all (l : list (string * PageCacheEntry)) : count (fun _ => true) l = length l.
Proof. unfold count. induction l as [|[k e] l IH]; cbn; [reflexivity | now rewrite IH]. Qed.

Lemma count_none (f : PageCacheEntry -> bool) (l : list (string * PageCacheEntry)) :
  (forall e, f e = false) -> count f l = 0%nat.
Proof.
  intros Hf. unfold count. induction l as [|[k e] l IH]; [reflexivity|].
  cbn [List.filter snd]. now rewrite Hf.
Qed.

(** Counting in a map that keeps the entries passing [keep] and drops the
    others. *)
Lemma count_restricted (keep f : PageCacheEntry -> bool) cache :
  forall kept : gmap string PageCacheEntry,
  (forall k, kept !! k = match cache !! k with
                         | Some e => if keep e then Some e else None
                         | None => None
                         end) ->
  count f (map_to_list kept) = count (fun e => keep e && f e) (map_to_list cache).
Proof.
  induction cache as [|i x cache Hi IH] using map_ind; intros kept Hkept.
  - assert (kept = ∅) as ->.
    { apply map_eq. intros k. rewrite Hkept, !lookup_empty. reflexivity. }
    now rewrite map_to_list_empty.
  - rewrite (count_perm _ _ _ (map_to_list_insert cache i x Hi)), count_cons.
    destruct (keep x) eqn:Hx.
    + assert (kept !! i = Some x) as Hki.
      { now rewrite Hkept, lookup_insert_eq, Hx. }
      rewrite <- (count_perm _ _ _ (map_to_list_delete kept i x Hki)), count_cons.
      cbn [andb]. f_equal. apply IH. intros k.
      destruct (decide (i = k)) as [<-|Hne].
      * now rewrite lookup_delete_eq, Hi.
      * now rewrite lookup_delete_ne, Hkept, lookup_insert_ne.
    + cbn [andb Nat.add]. apply IH. intros k. rewrite Hkept.
      destruct (decide (i = k)) as [<-|Hne].
      * now rewrite lookup_insert_eq, Hx, Hi.
      * now rewrite lookup_insert_ne.
Qed.

Lemma sweep_restricts now cache k :
  sweep now cache !! k = match cache !! k with
                         | Some e => if negb (is_expired now e) then Some e else None
                         | None => None
                         end.
Proof.
  rewrite sweep_lookup. destruct (cache !! k) as [e|]; [|reflexivity].
  now destruct (is_expired now e).
Qed.

End SweepFacts.

(** X1: the sweep removes from the page cache exactly the entries whose age
    at its clock reading is above the duration; an entry of age equal to the
    duration or younger, also one stamped in the future, stays as it is;
    nothing else of the server changes. *)
Theorem X1_sweep_removes_exactly_the_expired (now : Z) (st : Server) (key : string)
    (e : PageCacheEntry) :
  let st' := snd (cleanExpiredPageCache now st) in
  (pageCache st' !! key = Some e
   <-> pageCache st !! key = Some e /\ (now - timestamp e <= PAGE_CACHE_DURATION)%Z)
  /\ fileCache st' = fileCache st
  /\ themes st' = themes st
  /\ console st' = console st
  /\ timers st' = timers st.
Proof.
  cbv zeta. unfold cleanExpiredPageCache. run.
  split; [|repeat split]. rewrite sweep_lookup. unfold is_expired. split.
  - destruct (pageCache st !! key) as [e'|]; [|discriminate].
    destruct (Z.gtb_spec (now - timestamp e') PAGE_CACHE_DURATION); [discriminate|].
    intros [= <-]. split; [reflexivity | lia].
  - intros [-> Hage].
    destruct (Z.gtb_spec (now - timestamp e) PAGE_CACHE_DURATION); [lia | reflexivity].
Qed.

(** X2: statistics taken right after a sweep, at the same clock reading,
    report no expired entry, and as total and as valid the number of
    entries that were valid before the sweep. *)
Theorem X2_stats_after_sweep (now : Z) (st : Server) :
  let before := fst (getCacheStats now st) in
  let after := fst (getCacheStats now (snd (cleanExpiredPageCache now st))) in
  expired after = 0%nat
  /\ valid after = valid before
  /\ total after = valid before.
Proof.
  cbv zeta. unfold cleanExpiredPageCache, getCacheStats. run.
  rewrite !fold_stats. cbn [fst snd total valid expired Nat.add].
  pose proof (sweep_restricts now (pageCache st)) as Hkept.
  split; [|split].
  - rewrite (count_restricted _ _ _ _ Hkept). apply count_none.
    intros e. now destruct (is_expired now e).
  - rewrite (count_restricted _ _ _ _ Hkept). apply count_ext.
    intros e. now destruct (is_expired now e).
  - rewrite <- length_map_to_list, <- count_all, (count_restricted _ _ _ _ Hkept).
    apply count_ext. intros e. now destruct (is_expired now e).
Qed.

(** X3: a sweep is invisible to every lookup made at the same or a later
    clock reading: what the sweep removed, the lookup would have refused. *)
Theorem X3_sweep_invisible_to_later_lookups (t_sweep t_lookup : Z) (st : Server)
    (key : string) :
  (t_sweep <= t_lookup)%Z ->
  fst (isPageCacheValid key t_lookup (snd (cleanExpiredPageCache t_sweep st)))
  = fst (isPageCacheValid key t_lookup st).
Proof.
  intros Hle. unfold cleanExpiredPageCache, isPageCacheValid. run.
  rewrite sweep_lookup. destruct (pageCache st !! key) as [e|]; [|reflexivity].
  unfold is_expired.
  destruct (Z.gtb_spec (t_sweep - timestamp e) PAGE_CACHE_DURATION); [|reflexivity].
  symmetry. apply Z.ltb_ge. lia.
Qed.

(** The page of the sample server, swept and looked up 31 minutes later. *)
Lemma X3_sweep_invisible_to_later_lookups_witness :
  fst (isPageCacheValid "/:desktop" 1860000
         (snd (cleanExpiredPageCache 1860000 Sample.warmed)))
  = fst (isPageCacheValid "/:desktop" 1860000 Sample.warmed).
Proof.
  apply (X3_sweep_invisible_to_later_lookups 1860000 1860000 Sample.warmed "/:desktop").
  lia.
Defined.

(** ** The cache-or-render cycle *)

Section CycleFacts.
Context `{Zlib}.
Implicit Types (st : Server) (req : Request) (rendered : Rendered).

(** The cycle, for a url without extension: the cache is swept, then the
    request is answered from the entry of its key or by the renderer. *)
Lemma cacheOrRender_run t1 t2 t3 rendered req st :
  JsString.has_extension (url req) = false ->
  let c := sweep t1 (pageCache st) in
  let key := generateCacheKey (url req) (Some (or_empty (user_agent req))) in
  let ae := or_empty (accept_encoding req) in
  cacheOrRender t1 t2 t3 rendered req st
  = match c !! key with
    | Some e =>
        if (t2 - timestamp e <? PAGE_CACHE_DURATION)%Z
        then (serveCached ae e, set_pageCache c st)
        else renderAndStore ae key rendered t3 (set_pageCache c st)
    | None => renderAndStore ae key rendered t3 (set_pageCache c st)
    end.
Proof.
  intros Hext. cbv zeta. unfold cacheOrRender. rewrite Hext.
  unfold cleanExpiredPageCache, isPageCacheValid. run.
  destruct (sweep t1 (pageCache st) !! _) as [e|]; [|reflexivity].
  now destruct (t2 - timestamp e <? PAGE_CACHE_DURATION)%Z.
Qed.

Lemma cacheOrRender_miss t1 t2 t3 rendered req st :
  JsString.has_extension (url req) = false ->
  fst (isPageCacheValid (generateCacheKey (url req) (Some (or_empty (user_agent req)))) t2
         (snd (cleanExpiredPageCache t1 st))) = false ->
  cacheOrRender t1 t2 t3 rendered req st
  = renderAndStore (or_empty (accept_encoding req))
      (generateCacheKey (url req) (Some (or_empty (user_agent req)))) rendered t3
      (set_pageCache (sweep t1 (pageCache st)) st).
Proof.
  intros Hext Hmiss. rewrite (cacheOrRender_run _ _ _ _ _ _ Hext). cbv zeta.
  unfold cleanExpiredPageCache, isPageCacheValid in Hmiss. run.
  destruct (sweep t1 (pageCache st) !! _) as [e|]; [|reflexivity].
  now rewrite Hmiss.
Qed.

Lemma cacheOrRender_hit t1 t2 t3 rendered req st e :
  JsString.has_extension (url req) = false ->
  pageCache st !! generateCacheKey (url req) (Some (or_empty (user_agent req))) = Some e ->
  (t1 - timestamp e <= PAGE_CACHE_DURATION)%Z ->
  (t2 - timestamp e < PAGE_CACHE_DURATION)%Z ->
  cacheOrRender t1 t2 t3 rendered req st
  = (serveCached (or_empty (accept_encoding req)) e,
     set_pageCache (sweep t1 (pageCache st)) st).
Proof.
  intros Hext Hkey Hsweep Hlookup. rewrite (cacheOrRender_run _ _ _ _ _ _ Hext). cbv zeta.
  rewrite sweep_lookup, Hkey. unfold is_expired.
  destruct (Z.gtb_spec (t1 - timestamp e) PAGE_CACHE_DURATION); [lia|].
  destruct (Z.ltb_spec (t2 - timestamp e) PAGE_CACHE_DURATION); [reflexivity | lia].
Qed.

(** The answer from a fresh entry is the answer the miss gave. *)
Lemma serveCached_fresh (ae key template : string) (now : Z) st :
  serveCached ae (makeEntry template now)
  = fst (renderAndStore ae key (RenderPage template) now st).
Proof.
  unfold serveCached, renderAndStore, storePage, compressHtml. run.
  change (or_empty (Some ae)) with ae.
  cbn [headers compressedVersions br gzip uncompressed makeEntry].
  destruct (JsString.includes "br" ae); [reflexivity|].
  now destruct (JsString.includes "gzip" ae).
Qed.

Lemma cache_key_class (u : string) (ua ua' : option string) :
  generateCacheKey u ua = generateCacheKey u ua' -> isMobile ua = isMobile ua'.
Proof.
  unfold generateCacheKey. intros E.
  destruct (isMobile_cases ua) as [Ha|Ha]; rewrite Ha in *;
    destruct (isMobile_cases ua') as [Hb|Hb]; rewrite Hb in *; try reflexivity.
  - destruct (mobile_desktop_keys_differ _ _ E).
  - symmetry in E. destruct (mobile_desktop_keys_differ _ _ E).
Qed.

End CycleFacts.

(** X4: a hit does not renew the entry. When the entry of the request's key
    passes the sweep and the validity test, the answer is built from it
    alone (the renderer and the clock of the store play no part), and the
    cache afterwards is the swept cache, with the entry and its timestamp
    as they were: the 30 minutes run from the render, not from the last
    use. *)
Theorem X4_hit_does_not_renew `{Zlib} (t1 t2 t3 t3' : Z) (rendered rendered' : Rendered)
    (req : Request) (st : Server) (e : PageCacheEntry) :
  JsString.has_extension (url req) = false ->
  pageCache st !! generateCacheKey (url req) (Some (or_empty (user_agent req))) = Some e ->
  (t1 - timestamp e <= PAGE_CACHE_DURATION)%Z ->
  (t2 - timestamp e < PAGE_CACHE_DURATION)%Z ->
  let run := cacheOrRender t1 t2 t3 rendered req st in
  fst run = serveCached (or_empty (accept_encoding req)) e
  /\ run = cacheOrRender t1 t2 t3' rendered' req st
  /\ pageCache (snd run) = sweep t1 (pageCache st)
  /\ pageCache (snd run) !! generateCacheKey (url req) (Some (or_empty (user_agent req)))
     = Some e.
Proof.
  intros Hext Hkey Hsweep Hlookup. cbv zeta.
  rewrite !(cacheOrRender_hit _ _ _ _ _ _ _ Hext Hkey Hsweep Hlookup).
  cbn [fst snd pageCache set_pageCache]. repeat split.
  rewrite sweep_lookup, Hkey. unfold is_expired.
  destruct (Z.gtb_spec (t1 - timestamp e) PAGE_CACHE_DURATION); [lia | reflexivity].
Qed.

(** The home page of the sample server, asked for again ten minutes after
    its render. *)
Lemma X4_hit_does_not_renew_witness :
  timestamp <$> (pageCache (snd (cacheOrRender (H := Sample.zlib) 600000 600000 600000
                                   (RenderPage "<html>new</html>")
                                   (Sample.request "GET" "/") Sample.warmed))
                 !! "/:desktop")
  = Some 0%Z.
Proof.
  destruct (X4_hit_does_not_renew (H := Sample.zlib) 600000 600000 600000 600000
              (RenderPage "<html>new</html>") (RenderPage "<html>new</html>")
              (Sample.request "GET" "/") Sample.warmed
              (makeEntry (H := Sample.zlib) "<html>home</html>" 0))
    as (_ & _ & _ & Hkept).
  - reflexivity.
  - vm_compute; reflexivity.
  - vm_compute; discriminate.
  - reflexivity.
  - change (generateCacheKey (url (Sample.request "GET" "/"))
              (Some (or_empty (user_agent (Sample.request "GET" "/")))))
      with "/:desktop" in Hkept.
    rewrite Hkept. reflexivity.
Defined.

(** X5: a hit replays the miss. When a request misses and its page is
    rendered, a later request for the same route, the same device class and
    the same accepted encodings, made while the entry is valid, gets the
    very answer the first one got (status, headers in order, body), whatever
    the renderer would say now. *)
Theorem X5_hit_replays_the_miss `{Zlib} (t1 t2 t3 t1' t2' t3' : Z) (template : string)
    (rendered' : Rendered) (req req' : Request) (st : Server) :
  JsString.has_extension (url req) = false ->
  fst (isPageCacheValid (generateCacheKey (url req) (Some (or_empty (user_agent req)))) t2
         (snd (cleanExpiredPageCache t1 st))) = false ->
  url req' = url req ->
  isMobile (Some (or_empty (user_agent req'))) = isMobile (Some (or_empty (user_agent req))) ->
  or_empty (accept_encoding req') = or_empty (accept_encoding req) ->
  (t1' - t3 <= PAGE_CACHE_DURATION)%Z ->
  (t2' - t3 < PAGE_CACHE_DURATION)%Z ->
  let first := cacheOrRender t1 t2 t3 (RenderPage template) req st in
  let second := cacheOrRender t1' t2' t3' rendered' req' (snd first) in
  fst second = fst first.
Proof.
  intros Hext Hmiss Hurl Hclass Hae Hsweep Hlookup. cbv zeta.
  rewrite (cacheOrRender_miss _ _ _ _ _ _ Hext Hmiss).
  set (key := generateCacheKey (url req) (Some (or_empty (user_agent req)))).
  set (st1 := set_pageCache (sweep t1 (pageCache st)) st).
  assert (generateCacheKey (url req') (Some (or_empty (user_agent req'))) = key) as Hkey.
  { unfold key, generateCacheKey. now rewrite Hurl, Hclass. }
  assert (pageCache (snd (renderAndStore (or_empty (accept_encoding req)) key
                            (RenderPage template) t3 st1)) !! key
          = Some (makeEntry template t3)) as Hstored.
  { unfold renderAndStore, storePage. run. apply lookup_insert_eq. }
  rewrite (cacheOrRender_hit t1' t2' t3' rendered' req' _ (makeEntry template t3)).
  - cbn [fst]. rewrite Hae. apply serveCached_fresh.
  - now rewrite Hurl.
  - now rewrite Hkey.
  - exact Hsweep.
  - exact Hlookup.
Qed.

(** The first and the second visitor of [/about], five minutes apart. *)
Lemma X5_hit_replays_the_miss_witness :
  let first := cacheOrRender (H := Sample.zlib) 0 0 0 (RenderPage "<html>about</html>")
                 (Demo.phone "/about") Sample.started in
  fst (cacheOrRender (H := Sample.zlib) 300000 300000 300000 (RenderThrows "down" false)
         (Demo.phone "/about") (snd first))
  = fst first.
Proof.
  apply (X5_hit_replays_the_miss (H := Sample.zlib) 0 0 0 300000 300000 300000
           "<html>about</html>" (RenderThrows "down" false)
           (Demo.phone "/about") (Demo.phone "/about") Sample.started);
    try reflexivity; vm_compute; discriminate.
Defined.

(** X6: a redirect and a failed render leave no trace in the cache. With
    either outcome the cache after the cycle is the swept cache; on a miss
    the redirect is answered 301 with the target in [Location] and no body,
    the failure 500 with the message as body. *)
Theorem X6_redirect_and_failure_store_nothing `{Zlib} (t1 t2 t3 : Z) (req : Request)
    (st : Server) (target message : string) (headersSet : bool) :
  JsString.has_extension (url req) = false ->
  let key := generateCacheKey (url req) (Some (or_empty (user_agent req))) in
  let redirected := cacheOrRender t1 t2 t3 (RenderRedirect target) req st in
  let failed := cacheOrRender t1 t2 t3 (RenderThrows message headersSet) req st in
  pageCache (snd redirected) = sweep t1 (pageCache st)
  /\ pageCache (snd failed) = sweep t1 (pageCache st)
  /\ (fst (isPageCacheValid key t2 (snd (cleanExpiredPageCache t1 st))) = false ->
      statusCode (fst redirected) = 301%Z
      /\ header "Location" (fst redirected) = Some target
      /\ resBody (fst redirected) = NoBody
      /\ statusCode (fst failed) = 500%Z
      /\ resBody (fst failed) = Payload (Text message)).
Proof.
  intros Hext. cbv zeta. rewrite !(cacheOrRender_run _ _ _ _ _ _ Hext). cbv zeta.
  split; [|split].
  - destruct (sweep t1 (pageCache st) !! _) as [e|]; [|reflexivity].
    now destruct (t2 - timestamp e <? PAGE_CACHE_DURATION)%Z.
  - destruct (sweep t1 (pageCache st) !! _) as [e|]; [|reflexivity].
    now destruct (t2 - timestamp e <? PAGE_CACHE_DURATION)%Z.
  - unfold cleanExpiredPageCache, isPageCacheValid. run. intros Hmiss.
    destruct (sweep t1 (pageCache st) !! _) as [e|].
    + rewrite Hmiss. unfold renderAndStore. run.
      repeat split; now destruct headersSet.
    + unfold renderAndStore. run. repeat split; now destruct headersSet.
Qed.

(** A moved page asked for on the freshly started sample server. *)
Lemma X6_redirect_and_failure_store_nothing_witness :
  let run := cacheOrRender (H := Sample.zlib) 0 0 0 (RenderRedirect "/new")
               (Sample.request "GET" "/old") Sample.started in
  statusCode (fst run) = 301%Z /\ pageCache (snd run) = sweep 0 (pageCache Sample.started).
Proof.
  destruct (X6_redirect_and_failure_store_nothing (H := Sample.zlib) 0 0 0
              (Sample.request "GET" "/old") Sample.started "/new" "down" false eq_refl)
    as (Hcache & _ & Hanswer).
  destruct (Hanswer eq_refl) as (Hcode & _).
  split; [exact Hcode | exact Hcache].
Defined.

(** [/\.\w+$/] matches every string that ends in a dot and one or more
    word characters. *)
Lemma has_extension_suffix (base ext : string) :
  ext <> "" -> JsString.all_word ext = true ->
  JsString.has_extension (base +:+ String "." ext) = true.
Proof.
  intros Hne Hword. induction base as [|c base IH].
  - change ("" +:+ String "." ext) with (String "." ext). cbn [JsString.has_extension].
    apply String.eqb_neq in Hne. now rewrite Hne, Hword.
  - rewrite append_cons. cbn [JsString.has_extension]. rewrite IH. apply orb_true_r.
Qed.

(** X7: a url that ends in a dot followed by letters, digits or underscores
    is never rendered: the cycle answers 404 with the url in the body, and
    the whole server state, expired entries included, is as before; neither
    the sweep nor the renderer runs. *)
Theorem X7_extension_is_not_rendered `{Zlib} (t1 t2 t3 : Z) (rendered : Rendered)
    (req : Request) (st : Server) (base ext : string) :
  url req = base +:+ String "." ext ->
  ext <> "" ->
  JsString.all_word ext = true ->
  cacheOrRender t1 t2 t3 rendered req st
  = ({| statusCode := 404; resHeaders := [];
        resBody := Payload (Text ("Not found: " +:+ url req)) |}, st).
Proof.
  intros Hurl Hne Hword. unfold cacheOrRender.
  now rewrite Hurl, (has_extension_suffix base ext Hne Hword).
Qed.

(** A missing icon asked for 40 minutes after the home page was rendered. *)
Lemma X7_extension_is_not_rendered_witness :
  cacheOrRender (H := Sample.zlib) 2400000 2400000 2400000 (RenderPage "<html>x</html>")
    (Sample.request "GET" "/favicon.ico") Sample.warmed
  = ({| statusCode := 404; resHeaders := [];
        resBody := Payload (Text "Not found: /favicon.ico") |}, Sample.warmed).
Proof.
  apply (X7_extension_is_not_rendered (H := Sample.zlib) 2400000 2400000 2400000
           (RenderPage "<html>x</html>") (Sample.request "GET" "/favicon.ico")
           Sample.warmed "/favicon" "ico").
  - reflexivity.
  - discriminate.
  - reflexivity.
Defined.

(** X8: a miss whose page is rendered writes the entry of the request's
    key, stamped with the clock of the store, over whatever the swept cache
    held there; the answer is 200 with the html content type, the fixed
    cache control, the payload [compressHtml] gives, and a
    [Content-Encoding] header exactly when a compression was applied. *)
Theorem X8_miss_stores_and_answers `{Zlib} (t1 t2 t3 : Z) (template : string)
    (req : Request) (st : Server) :
  JsString.has_extension (url req) = false ->
  let key := generateCacheKey (url req) (Some (or_empty (user_agent req))) in
  fst (isPageCacheValid key t2 (snd (cleanExpiredPageCache t1 st))) = false ->
  let run := cacheOrRender t1 t2 t3 (RenderPage template) req st in
  let compressed := compressHtml template (Some (or_empty (accept_encoding req))) in
  pageCache (snd run) = <[key := makeEntry template t3]> (sweep t1 (pageCache st))
  /\ statusCode (fst run) = 200%Z
  /\ header "Content-Type" (fst run) = Some "text/html"
  /\ header "Cache-Control" (fst run) = Some "public, max-age=900"
  /\ header "Content-Encoding" (fst run) = snd compressed
  /\ resBody (fst run) = Payload (fst compressed).
Proof.
  intros Hext key Hmiss. cbv zeta. rewrite (cacheOrRender_miss _ _ _ _ _ _ Hext Hmiss).
  unfold renderAndStore, storePage, compressHtml. run.
  change (or_empty (Some (or_empty (accept_encoding req))))
    with (or_empty (accept_encoding req)).
  split; [reflexivity|].
  destruct (JsString.includes "br" (or_empty (accept_encoding req))); [repeat split|].
  destruct (JsString.includes "gzip" (or_empty (accept_encoding req))); repeat split.
Qed.

(** The first visitor of [/about] on the sample server, with a phone that
    accepts brotli. *)
Lemma X8_miss_stores_and_answers_witness :
  let run := cacheOrRender (H := Sample.zlib) 0 0 0 (RenderPage "<html>about</html>")
               (Demo.phone "/about") Sample.started in
  header "Content-Encoding" (fst run) = Some "br"
  /\ pageCache (snd run)
     = <[ "/about:mobile" := makeEntry (H := Sample.zlib) "<html>about</html>" 0 ]>
         (sweep 0 (pageCache Sample.started)).
Proof.
  destruct (X8_miss_stores_and_answers (H := Sample.zlib) 0 0 0 "<html>about</html>"
              (Demo.phone "/about") Sample.started eq_refl eq_refl)
    as (Hcache & _ & _ & _ & Henc & _).
  split; [exact Henc | exact Hcache].
Defined.

(** X9: a cycle writes no key but its own. After any cycle, the entry of
    every other key is what the sweep left of it; in particular a request
    of one device class never touches the entry the other class has for the
    same route. *)
Theorem X9_cycle_writes_its_own_key_only `{Zlib} (t1 t2 t3 : Z) (rendered : Rendered)
    (req : Request) (st : Server) :
  JsString.has_extension (url req) = false ->
  let after := pageCache (snd (cacheOrRender t1 t2 t3 rendered req st)) in
  (forall k, k <> generateCacheKey (url req) (Some (or_empty (user_agent req))) ->
             after !! k = sweep t1 (pageCache st) !! k)
  /\ (forall ua, isMobile ua <> isMobile (Some (or_empty (user_agent req))) ->
                 after !! generateCacheKey (url req) ua
                 = sweep t1 (pageCache st) !! generateCacheKey (url req) ua).
Proof.
  intros Hext. cbv zeta.
  assert (forall k, k <> generateCacheKey (url req) (Some (or_empty (user_agent req))) ->
            pageCache (snd (cacheOrRender t1 t2 t3 rendered req st)) !! k
            = sweep t1 (pageCache st) !! k) as Hframe.
  { intros k Hk. rewrite (cacheOrRender_run _ _ _ _ _ _ Hext). cbv zeta.
    assert (pageCache (snd (renderAndStore (or_empty (accept_encoding req))
                              (generateCacheKey (url req) (Some (or_empty (user_agent req))))
                              rendered t3 (set_pageCache (sweep t1 (pageCache st)) st))) !! k
            = sweep t1 (pageCache st) !! k) as Hmiss.
    { unfold renderAndStore, storePage. destruct rendered; run; try reflexivity.
      now rewrite lookup_insert_ne. }
    destruct (sweep t1 (pageCache st) !! generateCacheKey _ _) as [e|]; [|exact Hmiss].
    destruct (t2 - timestamp e <? PAGE_CACHE_DURATION)%Z; [reflexivity | exact Hmiss]. }
  split; [exact Hframe|].
  intros ua Hclass. apply Hframe. intros Hkey. apply Hclass.
  exact (cache_key_class _ _ _ Hkey).
Qed.

(** A phone asks for the home page of the sample server, whose desktop
    version is cached. *)
Lemma X9_cycle_writes_its_own_key_only_witness :
  pageCache (snd (cacheOrRender (H := Sample.zlib) 5 5 5 (RenderPage "<html>m</html>")
                    (Demo.phone "/") Sample.warmed)) !! "/:desktop"
  = pageCache Sample.warmed !! "/:desktop".
Proof.
  destruct (X9_cycle_writes_its_own_key_only (H := Sample.zlib) 5 5 5
              (RenderPage "<html>m</html>") (Demo.phone "/") Sample.warmed eq_refl)
    as (Hframe & _).
  rewrite (Hframe "/:desktop"); [|vm_compute; discriminate].
  vm_compute; reflexivity.
Defined.

(** ** Device classes *)

Section DeviceClassFacts.
Implicit Types (s a b n x y : string).

Lemma toLowerCase_append a b :
  JsString.toLowerCase (a +:+ b) = JsString.toLowerCase a +:+ JsString.toLowerCase b.
Proof.
  induction a as [|c a IH]; [reflexivity|].
  rewrite append_cons. cbn [JsString.toLowerCase]. rewrite append_cons. now f_equal.
Qed.

Lemma toLowerCase_split s x y :
  JsString.toLowerCase s = x +:+ y ->
  exists a b, s = a +:+ b /\ JsString.toLowerCase a = x /\ JsString.toLowerCase b = y.
Proof.
  revert s. induction x as [|c x IH]; intros s E.
  - exists "", s. repeat split. exact E.
  - destruct s as [|d s]; [discriminate E|].
    rewrite append_cons in E. cbn [JsString.toLowerCase] in E. injection E as Hc E.
    destruct (IH s E) as (a & b & -> & Ha & Hb).
    exists (String d a), b. rewrite append_cons. cbn [JsString.toLowerCase].
    repeat split; [now rewrite Hc, Ha | exact Hb].
Qed.

Lemma includes_unfold n s :
  JsString.includes n s
  = if String.prefix n s then true
    else match s with
         | EmptyString => false
         | String _ rest => JsString.includes n rest
         end.
Proof. now destruct s. Qed.

Lemma includes_infix n a b : JsString.includes n (a +:+ n +:+ b) = true.
Proof.
  induction a as [|c a IH].
  - change ("" +:+ n +:+ b) with (n +:+ b). now rewrite includes_unfold, prefix_append.
  - rewrite append_cons. cbn [JsString.includes]. rewrite IH. now destruct (String.prefix _ _).
Qed.

Lemma includes_split n s :
  JsString.includes n s = true -> exists a b, s = a +:+ n +:+ b.
Proof.
  induction s as [|c s IH]; rewrite includes_unfold.
  - destruct (String.prefix n "") eqn:Hp; [|discriminate]. intros _.
    apply prefix_split in Hp as [b ->]. now exists "", b.
  - destruct (String.prefix n (String c s)) eqn:Hp.
    + intros _. apply prefix_split in Hp as [b ->]. now exists "", b.
    + intros Hin. destruct (IH Hin) as (a & b & ->). exists (String c a), b.
      now rewrite append_cons.
Qed.

End DeviceClassFacts.

(** X10: the device class is mobile exactly when the user agent holds the
    word "mobile" somewhere, in any mix of upper and lower case; a missing
    or empty user agent is a desktop. *)
Theorem X10_mobile_is_a_caseless_substring (userAgent : string) :
  (isMobile (Some userAgent) = "mobile"
   <-> exists before word after,
         userAgent = before +:+ word +:+ after /\ JsString.toLowerCase word = "mobile")
  /\ isMobile None = "desktop"
  /\ isMobile (Some "") = "desktop".
Proof.
  split; [|split; reflexivity]. unfold isMobile. split.
  - destruct (JsString.includes "mobile" (JsString.toLowerCase userAgent)) eqn:Hin;
      [|discriminate].
    intros _. apply includes_split in Hin as (x & y & Hxy).
    apply toLowerCase_split in Hxy as (before & rest & -> & _ & Hrest).
    apply toLowerCase_split in Hrest as (word & after & -> & Hword & _).
    now exists before, word, after.
  - intros (before & word & after & -> & Hword).
    now rewrite !toLowerCase_append, Hword, includes_infix.
Qed.

(** ** Administrative endpoints *)

Lemma authorized_iff (env : Env) (req : Request) :
  authorized env req = true
  <-> authorization req = Some ("Bearer " +:+ interpolate (VITE_SIGNATURE env)).
Proof.
  unfold authorized. rewrite String.eqb_eq.
  destruct (authorization req) as [h|]; cbn.
  - split; [now intros -> | now intros [= ->]].
  - split; discriminate.
Qed.

(** X11: a request whose [Authorization] header is not exactly "Bearer "
    followed by the configured secret, a request without the header
    included, is answered 401 "Unauthorized" by each of the three guarded
    endpoints, and the server state is left as it was: nothing is cleared,
    no theme is set, no restart is scheduled. *)
Theorem X11_unauthorized_changes_nothing `{Platform} (env : Env) (req : Request)
    (now : Z) (update : SettingsUpdate) (st : Server) :
  authorization req <> Some ("Bearer " +:+ interpolate (VITE_SIGNATURE env)) ->
  cacheClearHandler env req st = (unauthorized, st)
  /\ cacheStatsHandler env now req st = (unauthorized, st)
  /\ setThemaHandler env update req st = (unauthorized, st)
  /\ statusCode unauthorized = 401%Z
  /\ resBody unauthorized = Payload (Text "Unauthorized").
Proof.
  intros Hauth.
  assert (authorized env req = false) as Hno.
  { destruct (authorized env req) eqn:E; [|reflexivity].
    now apply authorized_iff in E. }
  unfold cacheClearHandler, cacheStatsHandler, setThemaHandler. rewrite Hno.
  repeat split.
Qed.

(** An anonymous [POST /cache/clear] on the sample server. *)
Lemma X11_unauthorized_changes_nothing_witness :
  cacheClearHandler Sample.env (Sample.request "POST" "/cache/clear") Sample.warmed
  = (unauthorized, Sample.warmed).
Proof.
  destruct (X11_unauthorized_changes_nothing (H := Sample.platform) Sample.env
              (Sample.request "POST" "/cache/clear") 0 UpdateDone Sample.warmed)
    as (Hclear & _).
  - discriminate.
  - exact Hclear.
Defined.

(** X12: when no secret is configured, the expected header is the text
    "Bearer undefined": a request that sends it is authorised, and its
    [POST /cache/clear] empties the cache. *)
Theorem X12_unset_secret_accepts_undefined (env : Env) (req : Request) (st : Server) :
  VITE_SIGNATURE env = None ->
  authorization req = Some "Bearer undefined" ->
  authorized env req = true
  /\ statusCode (fst (cacheClearHandler env req st)) = 200%Z
  /\ pageCache (snd (cacheClearHandler env req st)) = ∅.
Proof.
  intros Hsecret Hheader.
  assert (authorized env req = true) as Hyes.
  { apply authorized_iff. now rewrite Hsecret, Hheader. }
  split; [exact Hyes|]. unfold cacheClearHandler, clearPageCache. rewrite Hyes.
  split; reflexivity.
Qed.

(** The warmed sample server, had it been started without a secret. *)
Lemma X12_unset_secret_accepts_undefined_witness :
  pageCache (snd (cacheClearHandler
                    {| VITE_SIGNATURE := None; VITE_WEBSITE_URL := None |}
                    {| url := "/cache/clear"; method := "POST"; accept_encoding := None;
                       if_none_match := None; user_agent := None;
                       authorization := Some "Bearer undefined"; body := "" |}
                    Sample.warmed)) = ∅.
Proof.
  apply (X12_unset_secret_accepts_undefined
           {| VITE_SIGNATURE := None; VITE_WEBSITE_URL := None |}
           {| url := "/cache/clear"; method := "POST"; accept_encoding := None;
              if_none_match := None; user_agent := None;
              authorization := Some "Bearer undefined"; body := "" |}
           Sample.warmed eq_refl eq_refl).
Defined.

Section ThemeSwitchFacts.
Context `{Zlib} `{Platform}.

(** On a discovered registry the test of lines 325 to 328 holds exactly for
    the namespaces of the registry. *)
Lemma themeExists_iff (registry : list (string * ThemeDescriptor)) (t : string) :
  Forall discovered registry ->
  themeExists registry (JStr t) = true
  <-> exists k d, In (k, d) registry /\ namespace d = t.
Proof.
  intros Hwf.
  assert (forall k d, In (k, d) registry ->
            default "" (JsString.theme_match k) = namespace d) as Hname.
  { intros k d Hin.
    destruct (proj1 (List.Forall_forall _ _) Hwf _ Hin)
      as (folder & Hkey & Hpre & Hplain & Hns). cbn [fst snd] in *.
    apply prefix_split in Hpre as [name ->].
    apply includes_slash_theme in Hplain.
    rewrite Hkey, (theme_match_key name Hplain), Hns, remove_first_theme.
    destruct (String.eqb_spec name "") as [->|_]; reflexivity. }
  unfold themeExists. rewrite existsb_exists. split.
  - intros [[k d] [Hin Heq]]. cbn [fst strict_eq_string] in Heq.
    apply String.eqb_eq in Heq. exists k, d. split; [exact Hin|].
    now rewrite <- (Hname k d Hin).
  - intros (k & d & Hin & Hns). exists (k, d). split; [exact Hin|].
    cbn [fst strict_eq_string]. apply String.eqb_eq. now rewrite (Hname k d Hin).
Qed.

End ThemeSwitchFacts.

(** X13: [POST /set-thema] changes the server only together with a 200
    answer, and then by one console line and one restart timer of 500 ms
    for the theme it was given; with any other answer (400, 401, 404) the
    state is exactly as before. The caches and the registry are never
    touched. *)
Theorem X13_set_thema_changes_state_only_with_200 `{Platform} (env : Env)
    (update : SettingsUpdate) (req : Request) (st : Server) :
  let res := fst (setThemaHandler env update req st) in
  let st' := snd (setThemaHandler env update req st) in
  ((statusCode res = 200%Z
    /\ exists theme,
         JSON_parse (body req) ≫= get_prop "theme" = Some theme
         /\ truthy theme = true
         /\ st' = setTimeout (RestartTimer 500 theme) (log (LogThemeSet theme) st))
   \/ ((statusCode res = 400%Z \/ statusCode res = 401%Z \/ statusCode res = 404%Z)
       /\ st' = st))
  /\ pageCache st' = pageCache st
  /\ fileCache st' = fileCache st
  /\ themes st' = themes st.
Proof.
  cbv zeta. split; [|apply setThemaHandler_frame].
  unfold setThemaHandler.
  destruct (negb (authorized env req)); [right; run; auto|].
  destruct (JSON_parse (body req) ≫= get_prop "theme") as [theme|]; [|right; run; auto].
  destruct (truthy theme) eqn:Htruthy; cbn [negb]; [|right; run; auto]. run.
  destruct (negb (themeExists (themes st) theme)); [right; auto|].
  destruct update; [right; auto|].
  left. split; [reflexivity|]. exists theme. auto.
Qed.

(** X14: on a started server, an authorised [POST /set-thema] that names a
    theme of the registry by its non-empty namespace is accepted: when the
    settings backend takes the change the answer is 200, the change is
    logged and the restart is scheduled 500 ms later; when the backend
    fails the answer is 400 and nothing is scheduled. *)
Theorem X14_registered_theme_is_accepted `{Zlib} `{Platform} (env : Env)
    (update : SettingsUpdate) (req : Request) (st : Server) (t : string) :
  reachable st ->
  authorized env req = true ->
  JSON_parse (body req) ≫= get_prop "theme" = Some (JStr t) ->
  t <> "" ->
  registered (themes st) (JStr t) ->
  let res := fst (setThemaHandler env update req st) in
  let st' := snd (setThemaHandler env update req st) in
  (update = UpdateDone ->
     statusCode res = 200%Z
     /\ timers st' = (timers st ++ [RestartTimer 500 (JStr t)])%list
     /\ console st' = (console st ++ [LogThemeSet (JStr t)])%list)
  /\ (update = UpdateThrows -> statusCode res = 400%Z /\ st' = st).
Proof.
  intros Hreach Hauth Hparse Hne (k & d & Hin & Heq). cbv zeta.
  destruct (reachable_invariant st Hreach) as (Hwf & _ & _).
  assert (themeExists (themes st) (JStr t) = true) as Hex.
  { apply (themeExists_iff _ _ Hwf). exists k, d. split; [exact Hin|]. now injection Heq. }
  unfold setThemaHandler. rewrite Hauth, Hparse. cbn [negb truthy].
  apply String.eqb_neq in Hne. rewrite Hne. cbn [negb]. run. rewrite Hex. cbn [negb].
  split; intros ->; repeat split.
Qed.

(** ** Restart *)

(** X15: a restart rebuilds the registry and nothing else. The page cache
    and the file cache live in the module, outside of [bootstrap]: after a
    theme switch and the restart it schedules, a page rendered before the
    switch and still within its 30 minutes is served from the cache as it
    was rendered. *)
Theorem X15_restart_keeps_the_caches `{Zlib} `{Platform} (env : Env) (admin req : Request)
    (update : SettingsUpdate) (fs : FileSystem) (themesDir : string)
    (t1 t2 t3 : Z) (rendered : Rendered) (st restarted : Server) (e : PageCacheEntry) :
  restart fs env themesDir (snd (setThemaHandler env update admin st)) = Some restarted ->
  JsString.has_extension (url req) = false ->
  pageCache st !! generateCacheKey (url req) (Some (or_empty (user_agent req))) = Some e ->
  (t1 - timestamp e <= PAGE_CACHE_DURATION)%Z ->
  (t2 - timestamp e < PAGE_CACHE_DURATION)%Z ->
  pageCache restarted = pageCache st
  /\ fileCache restarted = fileCache st
  /\ (exists found, discoverThemes fs env themesDir = Some found
                    /\ themes restarted = fst found)
  /\ fst (cacheOrRender t1 t2 t3 rendered req restarted)
     = serveCached (or_empty (accept_encoding req)) e.
Proof.
  intros Hre Hext Hkey Hsweep Hlookup.
  destruct (setThemaHandler_frame env update admin st) as (Hpages & Hfiles & _).
  unfold restart in Hre.
  destruct (timers (snd (setThemaHandler env update admin st))); [discriminate|].
  destruct (discoverThemes fs env themesDir) as [found|]; [|discriminate].
  injection Hre as <-. cbn [pageCache fileCache themes].
  split; [exact Hpages|]. split; [exact Hfiles|]. split; [now exists found|].
  rewrite (cacheOrRender_hit t1 t2 t3 rendered req _ e); try assumption.
  - reflexivity.
  - cbn [pageCache]. now rewrite Hpages.
Qed.

(** The default theme chosen on the sample server. *)
Lemma demo_warmed_reachable :
  reachable (H := Sample.zlib) (H0 := Demo.platform) Sample.warmed.
Proof.
  exists Sample.fs, Sample.env, "/srv/src", Sample.started.
  split; [exact sample_plain_names|]. split; [vm_compute; reflexivity|].
  apply rtc_once. apply (step_cycle 0 0 0).
Qed.

Lemma X14_registered_theme_is_accepted_witness :
  statusCode (fst (setThemaHandler (H := Demo.platform) Sample.env UpdateDone Demo.switch
                     Sample.warmed)) = 200%Z
  /\ timers Demo.switched = [RestartTimer 500 (JStr "default")].
Proof.
  destruct (X14_registered_theme_is_accepted (H := Sample.zlib) (H0 := Demo.platform)
              Sample.env UpdateDone Demo.switch Sample.warmed "default"
              demo_warmed_reachable eq_refl eq_refl) as (Hdone & _).
  - discriminate.
  - eexists _, _. split; [left; reflexivity | reflexivity].
  - destruct (Hdone eq_refl) as (Hcode & Htimers & _).
    split; [exact Hcode | exact Htimers].
Defined.

(** The home page rendered at time 0, asked for one minute later, after the
    theme was switched and the server restarted. *)
Lemma X15_restart_keeps_the_caches_witness :
  map (fun kv => namespace (snd kv)) (themes Demo.restarted) = ["default"; "dark"]
  /\ fst (cacheOrRender (H := Sample.zlib) 60000 60000 60000 (RenderThrows "down" false)
            (Sample.request "GET" "/") Demo.restarted)
     = serveCached "" (makeEntry (H := Sample.zlib) "<html>home</html>" 0).
Proof.
  split; [vm_compute; reflexivity|].
  destruct (X15_restart_keeps_the_caches (H := Sample.zlib) (H0 := Demo.platform)
              Sample.env Demo.switch (Sample.request "GET" "/") UpdateDone Demo.fs2
              "/srv/src" 60000 60000 60000 (RenderThrows "down" false)
              Sample.warmed Demo.restarted
              (makeEntry (H := Sample.zlib) "<html>home</html>" 0))
    as (_ & _ & _ & Hserved).
  - vm_compute; reflexivity.
  - reflexivity.
  - vm_compute; reflexivity.
  - vm_compute; discriminate.
  - reflexivity.
  - exact Hserved.
Defined.

(** ** Discovery of the themes *)

Section DiscoveryFacts.
Context `{Platform}.
Implicit Types (registry : list (string * ThemeDescriptor)).







End DiscoveryFacts.




(** ** Static files *)

Section StaticFacts.
Context `{Zlib} `{Platform}.
Implicit Types (st : Server) (req : Request) (fs : FileSystem).

(** A cached entry with the current modification time answers the request. *)
Lemma serveStaticFile_cached fs req filePath st ce content :
  fileCache st !! filePath = Some ce ->
  fs filePath = Some (FsFile (mtime ce) content) ->
  serveStaticFile fs req filePath st
  = (Some (respondFile req filePath (buffer ce) (etag ce)), st).
Proof.
  intros Hce Hfs. unfold serveStaticFile, loadFile. rewrite Hfs. run.
  now rewrite Hce, Z.eqb_refl.
Qed.

(** Without such an entry the file is read, digested and cached. *)
Lemma serveStaticFile_fresh fs req filePath st m bytes :
  (forall ce, fileCache st !! filePath = Some ce -> mtime ce <> m) ->
  fs filePath = Some (FsFile m (Some bytes)) ->
  serveStaticFile fs req filePath st
  = (Some (respondFile req filePath bytes (md5_hex bytes)),
     set_fileCache (<[filePath := {| buffer := bytes; etag := md5_hex bytes; mtime := m |}]>
                      (fileCache st)) st).
Proof.
  intros Hstale Hfs. unfold serveStaticFile, loadFile, readAndCache. rewrite Hfs. run.
  destruct (fileCache st !! filePath) as [ce|] eqn:Hce; [|reflexivity].
  destruct (Z.eqb_spec (mtime ce) m) as [Heq|_]; [|reflexivity].
  now destruct (Hstale ce eq_refl).
Qed.

(** Every answer of [respondFile] carries the tag in [ETag]. *)
Lemma respondFile_etag req filePath (buf : Buffer) (tag : string) :
  header "ETag" (respondFile req filePath buf tag) = Some tag.
Proof.
  unfold respondFile. destruct (String.eqb _ tag); [reflexivity|].
  destruct (existsb _ compressibleTypes); [|reflexivity].
  destruct (snd (compressFile buf _)) as [enc|]; [|reflexivity].
  now destruct (String.eqb enc "").
Qed.

(** A file that cannot be read and is not cached under its modification
    time is reported and not served. *)
Lemma serveStaticFile_unreadable fs req filePath st m :
  (forall ce, fileCache st !! filePath = Some ce -> mtime ce <> m) ->
  fs filePath = Some (FsFile m None) ->
  serveStaticFile fs req filePath st = (None, log (LogServeError filePath) st).
Proof.
  intros Hstale Hfs. unfold serveStaticFile, loadFile, readAndCache. rewrite Hfs. run.
  destruct (fileCache st !! filePath) as [ce|] eqn:Hce; [|reflexivity].
  destruct (Z.eqb_spec (mtime ce) m) as [Heq|_]; [|reflexivity].
  now destruct (Hstale ce eq_refl).
Qed.

Lemma serveStaticFile_not_a_file fs req filePath st :
  (forall m content, fs filePath <> Some (FsFile m content)) ->
  serveStaticFile fs req filePath st = (None, st).
Proof.
  intros Hnot. unfold serveStaticFile.
  destruct (fs filePath) as [[m content| |]|]; try reflexivity.
  now destruct (Hnot m content).
Qed.

(** Either the path is cached under the modification time [m], or no entry
    of the path has it. *)
Lemma fileCache_cases st (filePath : string) (m : Z) :
  (exists ce, fileCache st !! filePath = Some ce /\ mtime ce = m)
  \/ (forall ce, fileCache st !! filePath = Some ce -> mtime ce <> m).
Proof.
  destruct (fileCache st !! filePath) as [ce|]; [|right; discriminate].
  destruct (Z.eq_dec (mtime ce) m); [left; eauto|right; now intros ? [= <-]].
Qed.

(** What a first request for a readable file leaves in the file cache. *)
Lemma serveStaticFile_first fs req filePath st m bytes :
  fs filePath = Some (FsFile m (Some bytes)) ->
  exists ce,
    fileCache (snd (serveStaticFile fs req filePath st)) !! filePath = Some ce
    /\ mtime ce = m
    /\ fst (serveStaticFile fs req filePath st)
       = Some (respondFile req filePath (buffer ce) (etag ce)).
Proof.
  intros Hfs. destruct (fileCache_cases st filePath m) as [(ce & Hce & Hm)|Hstale].
  - subst m. rewrite (serveStaticFile_cached fs req filePath st ce _ Hce Hfs).
    exists ce. auto.
  - rewrite (serveStaticFile_fresh fs req filePath st m bytes Hstale Hfs).
    eexists. cbn [fst snd fileCache set_fileCache].
    split; [apply lookup_insert_eq|]. split; reflexivity.
Qed.

End StaticFacts.

(** X17: [serveStaticFile] declines, so that the listener goes on to the
    next route, exactly when the path is not a regular file, or when the
    file cannot be read and the file cache has no entry with its current
    modification time. Declining leaves both caches as they were; only the
    failed read is reported on the console. *)
Theorem X17_static_declines `{Zlib} `{Platform} (fs : FileSystem) (req : Request)
    (filePath : string) (st : Server) :
  let run := serveStaticFile fs req filePath st in
  (fst run = None
   <-> (forall m content, fs filePath <> Some (FsFile m content))
       \/ exists m, fs filePath = Some (FsFile m None)
                    /\ forall ce, fileCache st !! filePath = Some ce -> mtime ce <> m)
  /\ (fst run = None ->
      fileCache (snd run) = fileCache st
      /\ pageCache (snd run) = pageCache st
      /\ ((forall m content, fs filePath <> Some (FsFile m content)) -> snd run = st)
      /\ (forall m content, fs filePath = Some (FsFile m content) ->
            console (snd run) = (console st ++ [LogServeError filePath])%list)).
Proof.
  cbv zeta.
  assert ((exists m content, fs filePath = Some (FsFile m content))
          \/ forall m content, fs filePath <> Some (FsFile m content)) as [(m & content & Hfs)|Hnot].
  { destruct (fs filePath) as [[m content| |]|]; [left; eauto|right..]; discriminate. }
  - assert ((exists ce, fileCache st !! filePath = Some ce /\ mtime ce = m)
            \/ forall ce, fileCache st !! filePath = Some ce -> mtime ce <> m)
      as [(ce & Hce & Hm)|Hstale].
    { destruct (fileCache st !! filePath) as [ce|]; [|right; discriminate].
      destruct (Z.eq_dec (mtime ce) m); [left; eauto|right; now intros ? [= <-]]. }
    + subst m. rewrite (serveStaticFile_cached fs req filePath st ce _ Hce Hfs).
      cbn [fst snd]. split; [|discriminate]. split; [discriminate|].
      intros [Hnot|(m' & Hnone & Hstale)].
      * now destruct (Hnot (mtime ce) content).
      * rewrite Hfs in Hnone. injection Hnone as Hm _. now destruct (Hstale ce Hce).
    + destruct content as [bytes|].
      * rewrite (serveStaticFile_fresh fs req filePath st m bytes Hstale Hfs).
        cbn [fst snd]. split; [|discriminate]. split; [discriminate|].
        intros [Hnot|(m' & Hnone & _)].
        -- now destruct (Hnot m (Some bytes)).
        -- rewrite Hfs in Hnone. discriminate Hnone.
      * rewrite (serveStaticFile_unreadable fs req filePath st m Hstale Hfs).
        cbn [fst snd]. split.
        -- split; [|reflexivity]. intros _. right. exists m. auto.
        -- intros _. split; [reflexivity|]. split; [reflexivity|]. split.
           ++ intros Hno. now destruct (Hno m None).
           ++ reflexivity.
  - rewrite (serveStaticFile_not_a_file fs req filePath st Hnot). cbn [fst snd]. split.
    + split; [|reflexivity]. intros _. now left.
    + intros _. split; [reflexivity|]. split; [reflexivity|]. split; [reflexivity|].
      intros m content Hfs. now destruct (Hnot m content).
Qed.

(** An unreadable stylesheet on the disk of the sample server. *)
Lemma X17_static_declines_witness :
  let fs := fun p => if String.eqb p "/srv/dist/locked.css"
                     then Some (FsFile 5 None) else Sample.fs p in
  let run := serveStaticFile (H := Sample.zlib) (H0 := Sample.platform) fs
               (Sample.request "GET" "/locked.css") "/srv/dist/locked.css" Sample.started in
  fst run = None
  /\ console run.2 = (console Sample.started ++ [LogServeError "/srv/dist/locked.css"])%list.
Proof.
  cbv zeta.
  destruct (X17_static_declines (H := Sample.zlib) (H0 := Sample.platform)
              (fun p => if String.eqb p "/srv/dist/locked.css"
                        then Some (FsFile 5 None) else Sample.fs p)
              (Sample.request "GET" "/locked.css") "/srv/dist/locked.css" Sample.started)
    as (Hiff & Hstate).
  assert (fst (serveStaticFile (H := Sample.zlib) (H0 := Sample.platform)
                 (fun p => if String.eqb p "/srv/dist/locked.css"
                           then Some (FsFile 5 None) else Sample.fs p)
                 (Sample.request "GET" "/locked.css") "/srv/dist/locked.css"
                 Sample.started) = None) as Hnone.
  { apply Hiff. right. exists 5%Z. split; [reflexivity|]. intros ce Hce.
    vm_compute in Hce. discriminate Hce. }
  split; [exact Hnone|].
  destruct (Hstate Hnone) as (_ & _ & _ & Hlog). exact (Hlog 5%Z None eq_refl).
Defined.

(** X18: while the modification time does not change, the file is served
    from the file cache and the disk is not read again. After a first
    request read the file, a second request that finds the same
    modification time is answered from the cached bytes with the same
    entity tag, whatever the file now holds and even if it can no longer be
    read, and leaves the state as it is. *)
Theorem X18_same_mtime_same_tag `{Zlib} `{Platform} (fs fs' : FileSystem)
    (req req' : Request) (filePath : string) (st : Server) (m : Z) (bytes : Buffer)
    (content' : option Buffer) :
  fs filePath = Some (FsFile m (Some bytes)) ->
  fs' filePath = Some (FsFile m content') ->
  let first := serveStaticFile fs req filePath st in
  let second := serveStaticFile fs' req' filePath (snd first) in
  exists ce res res',
    fileCache (snd first) !! filePath = Some ce
    /\ fst first = Some res
    /\ fst second = Some res'
    /\ res' = respondFile req' filePath (buffer ce) (etag ce)
    /\ header "ETag" res = Some (etag ce)
    /\ header "ETag" res' = Some (etag ce)
    /\ snd second = snd first.
Proof.
  intros Hfs Hfs'. cbv zeta.
  destruct (serveStaticFile_first fs req filePath st m bytes Hfs) as (ce & Hce & Hm & Hres).
  subst m. exists ce, (respondFile req filePath (buffer ce) (etag ce)),
    (respondFile req' filePath (buffer ce) (etag ce)).
  rewrite (serveStaticFile_cached fs' req' filePath _ ce content' Hce Hfs').
  cbn [fst snd]. repeat split; try assumption; apply respondFile_etag.
Qed.

(** The stylesheet of the sample server, rewritten on disk without a change
    of its modification time. *)
Lemma X18_same_mtime_same_tag_witness :
  let fs' := fun p => if String.eqb p "/srv/dist/assets/app.css"
                      then Some (FsFile 2000 (Some (list_byte_of_string "body{color:red}")))
                      else Sample.fs p in
  resBody <$> fst (serveStaticFile (H := Sample.zlib) (H0 := Sample.platform) fs'
                     (Sample.request "GET" "/assets/app.css") "/srv/dist/assets/app.css"
                     Demo.served)
  = Some (Payload (Bytes (list_byte_of_string "body{}"))).
Proof.
  cbv zeta.
  destruct (X18_same_mtime_same_tag (H := Sample.zlib) (H0 := Sample.platform) Sample.fs
              (fun p => if String.eqb p "/srv/dist/assets/app.css"
                        then Some (FsFile 2000 (Some (list_byte_of_string "body{color:red}")))
                        else Sample.fs p)
              (Sample.request "GET" "/assets/app.css") (Sample.request "GET" "/assets/app.css")
              "/srv/dist/assets/app.css" Sample.started 2000 (list_byte_of_string "body{}")
              (Some (list_byte_of_string "body{color:red}")) eq_refl eq_refl)
    as (ce & res & res' & Hce & _ & Hsecond & Hres' & _).
  change (snd (serveStaticFile Sample.fs (Sample.request "GET" "/assets/app.css")
                 "/srv/dist/assets/app.css" Sample.started)) with Demo.served in *.
  rewrite Hsecond, Hres'. vm_compute in Hce. injection Hce as <-. reflexivity.
Defined.

(** X19: the entity tag makes the round trip. When a request is answered
    with a tag and the next request for the same path sends that tag back
    in [If-None-Match] while the modification time is unchanged, the answer
    is 304 with the tag and no body. *)
Theorem X19_etag_round_trip `{Zlib} `{Platform} (fs fs' : FileSystem)
    (req req' : Request) (filePath : string) (st : Server) (m : Z) (bytes : Buffer)
    (content' : option Buffer) (res : Response) :
  fs filePath = Some (FsFile m (Some bytes)) ->
  fs' filePath = Some (FsFile m content') ->
  fst (serveStaticFile fs req filePath st) = Some res ->
  if_none_match req' = header "ETag" res ->
  exists tag,
    header "ETag" res = Some tag
    /\ fst (serveStaticFile fs' req' filePath (snd (serveStaticFile fs req filePath st)))
       = Some {| statusCode := 304; resHeaders := [("ETag", tag)]; resBody := NoBody |}.
Proof.
  intros Hfs Hfs' Hres Hsent.
  destruct (serveStaticFile_first fs req filePath st m bytes Hfs) as (ce & Hce & Hm & Hfirst).
  rewrite Hfirst in Hres. injection Hres as <-. subst m.
  exists (etag ce). split; [apply respondFile_etag|].
  rewrite (serveStaticFile_cached fs' req' filePath _ ce content' Hce Hfs'). cbn [fst].
  f_equal. rewrite respondFile_etag in Hsent.
  unfold respondFile at 1. rewrite Hsent. cbn [or_empty default from_option id].
  now rewrite String.eqb_refl.
Qed.

(** The stylesheet of the sample server asked for again with the tag of the
    first answer. *)
Lemma X19_etag_round_trip_witness :
  statusCode <$> fst (serveStaticFile (H := Sample.zlib) (H0 := Sample.platform) Sample.fs
                        {| url := "/assets/app.css"; method := "GET";
                           accept_encoding := None;
                           if_none_match := Some "d41d8cd98f00b204e9800998ecf8427e";
                           user_agent := None; authorization := None; body := "" |}
                        "/srv/dist/assets/app.css" Demo.served)
  = Some 304%Z.
Proof.
  destruct (X19_etag_round_trip (H := Sample.zlib) (H0 := Sample.platform) Sample.fs Sample.fs
              (Sample.request "GET" "/assets/app.css")
              {| url := "/assets/app.css"; method := "GET"; accept_encoding := None;
                 if_none_match := Some "d41d8cd98f00b204e9800998ecf8427e";
                 user_agent := None; authorization := None; body := "" |}
              "/srv/dist/assets/app.css" Sample.started 2000 (list_byte_of_string "body{}")
              (Some (list_byte_of_string "body{}"))
              (respondFile (H := Sample.zlib) (H0 := Sample.platform)
                 (Sample.request "GET" "/assets/app.css") "/srv/dist/assets/app.css"
                 (list_byte_of_string "body{}") "d41d8cd98f00b204e9800998ecf8427e")
              eq_refl eq_refl eq_refl eq_refl) as (tag & _ & Hsecond).
  change (snd (serveStaticFile Sample.fs (Sample.request "GET" "/assets/app.css")
                 "/srv/dist/assets/app.css" Sample.started)) with Demo.served in Hsecond.
  rewrite Hsecond. reflexivity.
Defined.


(** X20: a new modification time invalidates the cached file. When the
    file a first request served is found with another modification time,
    the next request reads it again, answers with the digest of the new
    bytes as tag, and replaces the entry of the path in the file cache; a
    conditional request that still carries another tag gets the new
    content with status 200. *)
Theorem X20_new_mtime_reads_again `{Zlib} `{Platform} (fs fs' : FileSystem)
    (req req' : Request) (filePath : string) (st : Server) (m m' : Z)
    (bytes bytes' : Buffer) :
  fs filePath = Some (FsFile m (Some bytes)) ->
  fs' filePath = Some (FsFile m' (Some bytes')) ->
  m <> m' ->
  let first := serveStaticFile fs req filePath st in
  let second := serveStaticFile fs' req' filePath (snd first) in
  fst second = Some (respondFile req' filePath bytes' (md5_hex bytes'))
  /\ fileCache (snd second)
     = <[filePath := {| buffer := bytes'; etag := md5_hex bytes'; mtime := m' |}]>
         (fileCache (snd first))
  /\ header "ETag" (respondFile req' filePath bytes' (md5_hex bytes')) = Some (md5_hex bytes')
  /\ (or_empty (if_none_match req') <> md5_hex bytes' ->
      statusCode (respondFile req' filePath bytes' (md5_hex bytes')) = 200%Z).
Proof.
  intros Hfs Hfs' Hne. cbv zeta.
  destruct (serveStaticFile_first fs req filePath st m bytes Hfs) as (ce & Hce & Hm & _).
  rewrite (serveStaticFile_fresh fs' req' filePath _ m' bytes').
  - cbn [fst snd fileCache set_fileCache].
    split; [reflexivity|]. split; [reflexivity|]. split; [apply respondFile_etag|].
    intros Htag. apply String.eqb_neq in Htag. unfold respondFile. rewrite Htag.
    destruct (existsb _ compressibleTypes); [|reflexivity].
    destruct (snd (compressFile bytes' _)) as [enc|]; [|reflexivity].
    now destruct (String.eqb enc "").
  - intros ce' Hce'. rewrite Hce in Hce'. injection Hce' as <-. congruence.
  - exact Hfs'.
Qed.

(** The stylesheet of the sample server, edited after it was served. *)
Lemma X20_new_mtime_reads_again_witness :
  let fs' := fun p => if String.eqb p "/srv/dist/assets/app.css"
                      then Some (FsFile 2500 (Some (list_byte_of_string "body{color:red}")))
                      else Sample.fs p in
  resBody <$> fst (serveStaticFile (H := Sample.zlib) (H0 := Sample.platform) fs'
                     (Sample.request "GET" "/assets/app.css") "/srv/dist/assets/app.css"
                     Demo.served)
  = Some (Payload (Bytes (list_byte_of_string "body{color:red}"))).
Proof.
  cbv zeta.
  destruct (X20_new_mtime_reads_again (H := Sample.zlib) (H0 := Sample.platform) Sample.fs
              (fun p => if String.eqb p "/srv/dist/assets/app.css"
                        then Some (FsFile 2500 (Some (list_byte_of_string "body{color:red}")))
                        else Sample.fs p)
              (Sample.request "GET" "/assets/app.css") (Sample.request "GET" "/assets/app.css")
              "/srv/dist/assets/app.css" Sample.started 2000 2500
              (list_byte_of_string "body{}") (list_byte_of_string "body{color:red}")
              eq_refl eq_refl) as (Hsecond & _).
  - discriminate.
  - change (snd (serveStaticFile Sample.fs (Sample.request "GET" "/assets/app.css")
                   "/srv/dist/assets/app.css" Sample.started)) with Demo.served in Hsecond.
    rewrite Hsecond. reflexivity.
Defined.

Lemma compressFile_encoding `{Zlib} (buf : Buffer) (acceptEncoding : option string) :
  snd (compressFile buf acceptEncoding) <> Some "".
Proof.
  unfold compressFile. destruct (JsString.includes "br" _); [discriminate|].
  destruct (JsString.includes "gzip" _); discriminate.
Qed.

(** X21: a file that is sent (not answered 304) goes out with its content
    type, its tag and the fixed cache control. It is compressed only when
    its content type holds one of the five compressible markers: then the
    body and [Content-Encoding] are what [compressFile] gives for the
    request's accepted encodings, and [Vary: Accept-Encoding] is set exactly
    when an encoding was applied. Any other type, the default
    "application/octet-stream" of unknown files included, is sent as the
    raw bytes without these two headers, whatever the client accepts. *)
Theorem X21_only_compressible_types_are_compressed `{Zlib} `{Platform} (req : Request)
    (filePath : string) (buf : Buffer) (tag contentType : string) :
  or_empty (if_none_match req) <> tag ->
  (mime_lookup filePath = Some contentType /\ contentType <> "")
  \/ (contentType = "application/octet-stream"
      /\ (mime_lookup filePath = None \/ mime_lookup filePath = Some "")) ->
  let res := respondFile req filePath buf tag in
  let compressible :=
    existsb (fun marker => JsString.includes marker contentType) compressibleTypes in
  let compressed := compressFile buf (Some (or_empty (accept_encoding req))) in
  statusCode res = 200%Z
  /\ header "Content-Type" res = Some contentType
  /\ header "Cache-Control" res = Some "public, max-age=900"
  /\ (compressible = false ->
      resBody res = Payload (Bytes buf)
      /\ header "Content-Encoding" res = None /\ header "Vary" res = None)
  /\ (compressible = true ->
      resBody res = Payload (Bytes (fst compressed))
      /\ header "Content-Encoding" res = snd compressed
      /\ header "Vary" res = match snd compressed with
                             | Some _ => Some "Accept-Encoding"
                             | None => None
                             end)
  /\ (contentType = "application/octet-stream" -> compressible = false).
Proof.
  intros Htag Htype. cbv zeta. apply String.eqb_neq in Htag.
  assert (match mime_lookup filePath with
          | Some t => if String.eqb t "" then "application/octet-stream" else t
          | None => "application/octet-stream"
          end = contentType) as Hct.
  { destruct Htype as [[-> Hne]|[-> [->| ->]]]; try reflexivity.
    apply String.eqb_neq in Hne. now rewrite Hne. }
  unfold respondFile. rewrite Htag, Hct.
  destruct (existsb _ compressibleTypes) eqn:Hc.
  - pose proof (compressFile_encoding buf (Some (or_empty (accept_encoding req)))) as Henc.
    destruct (snd (compressFile buf _)) as [enc|] eqn:Hsnd.
    + destruct (String.eqb_spec enc "") as [->|_]; [congruence|].
      repeat split; try discriminate. intros ->. discriminate Hc.
    + repeat split; try discriminate. intros ->. discriminate Hc.
  - repeat split; discriminate.
Qed.

(** The stylesheet and an archive of unknown type, both asked for by a
    client that accepts brotli. *)
Lemma X21_only_compressible_types_are_compressed_witness :
  let req := Demo.phone "/assets/app.css" in
  header "Content-Encoding"
    (respondFile (H := Sample.zlib) (H0 := Sample.platform) req "/srv/dist/assets/app.css"
       [Byte.x61] "t") = Some "br"
  /\ header "Content-Encoding"
       (respondFile (H := Sample.zlib) (H0 := Sample.platform) req "/srv/dist/data.bin"
          [Byte.x61] "t") = None.
Proof.
  cbv zeta. split.
  - destruct (X21_only_compressible_types_are_compressed (H := Sample.zlib)
                (H0 := Sample.platform) (Demo.phone "/assets/app.css")
                "/srv/dist/assets/app.css" [Byte.x61] "t" "text/css")
      as (_ & _ & _ & _ & Hyes & _).
    + discriminate.
    + left. split; [reflexivity | discriminate].
    + destruct (Hyes eq_refl) as (_ & Henc & _). rewrite Henc. reflexivity.
  - destruct (X21_only_compressible_types_are_compressed (H := Sample.zlib)
                (H0 := Sample.platform) (Demo.phone "/assets/app.css")
                "/srv/dist/data.bin" [Byte.x61] "t" "application/octet-stream")
      as (_ & _ & _ & Hno & _).
    + discriminate.
    + right. split; [reflexivity | left; reflexivity].
    + exact (proj1 (proj2 (Hno eq_refl))).
Defined.

(** ** The request listener *)

Section ListenerFacts.
Context `{Zlib} `{Platform} `{Paths}.
Implicit Types (st : Server) (req : Request) (w : Turn).

Lemma answered_run (h : M Response) st :
  answered h st = (Some (fst (h st)), snd (h st)).
Proof. unfold answered. run. now destruct (h st). Qed.

Lemma renderRoute_steps w req st : rtc step st (snd (renderRoute w req st)).
Proof.
  unfold renderRoute. destruct (negb (turn_loads w)); [apply rtc_refl|].
  destruct (turn_middleware w); [apply rtc_refl|].
  rewrite answered_run. apply rtc_once, step_cycle.
Qed.

(** The listener past the four fixed routes: the asset check, the static
    check, the page route. *)
Lemma handleRequest_tail env w req st :
  String.eqb (url req) "/themas" && String.eqb (method req) "GET" = false ->
  String.eqb (url req) "/cache/clear" && String.eqb (method req) "POST" = false ->
  String.eqb (url req) "/cache/stats" && String.eqb (method req) "GET" = false ->
  String.eqb (url req) "/set-thema" && String.eqb (method req) "POST" = false ->
  let filePath := resolve_dist ("." +:+ url req) in
  let asset := (if JsString.startsWith "/assets/" (url req)
                then serveStaticFile (turn_fs w) req filePath else mret None) st in
  let static := (if negb (String.eqb (url req) "/")
                    && negb (JsString.includes "?" (url req))
                    && JsString.has_extension (url req)
                 then serveStaticFile (turn_fs w) req filePath else mret None)
                  (snd asset) in
  handleRequest env w req st
  = match fst asset with
    | Some res => (Some res, snd asset)
    | None =>
        match fst static with
        | Some res => (Some res, snd static)
        | None => renderRoute w req (snd static)
        end
    end.
Proof.
  intros H1' H2' H3' H4'. cbv zeta. unfold handleRequest. rewrite H1', H2', H3', H4'.
  cbv [mbind handler_bind bind].
  destruct ((if JsString.startsWith "/assets/" (url req)
             then serveStaticFile (turn_fs w) req (resolve_dist ("." +:+ url req))
             else mret None) st) as [[res|] st1]; [reflexivity|]. cbn [fst snd].
  destruct ((if negb (String.eqb (url req) "/") && negb (JsString.includes "?" (url req))
                && JsString.has_extension (url req)
             then serveStaticFile (turn_fs w) req (resolve_dist ("." +:+ url req))
             else mret None) st1) as [[res|] st2]; reflexivity.
Qed.

(** One turn of the listener is a sequence of transitions. *)
Lemma handleRequest_steps env w req st : rtc step st (snd (handleRequest env w req st)).
Proof.
  destruct (String.eqb (url req) "/themas" && String.eqb (method req) "GET") eqn:H1';
    [unfold handleRequest; rewrite H1', answered_run; apply rtc_once, step_themas|].
  destruct (String.eqb (url req) "/cache/clear" && String.eqb (method req) "POST") eqn:H2';
    [unfold handleRequest; rewrite H1', H2', answered_run; apply rtc_once, step_cache_clear|].
  destruct (String.eqb (url req) "/cache/stats" && String.eqb (method req) "GET") eqn:H3';
    [unfold handleRequest; rewrite H1', H2', H3', answered_run;
     apply rtc_once, step_cache_stats|].
  destruct (String.eqb (url req) "/set-thema" && String.eqb (method req) "POST") eqn:H4';
    [unfold handleRequest; rewrite H1', H2', H3', H4', answered_run;
     apply rtc_once, step_set_thema|].
  rewrite (handleRequest_tail env w req st H1' H2' H3' H4'). cbv zeta.
  set (filePath := resolve_dist ("." +:+ url req)).
  assert (forall (b : bool) s,
            rtc step s (snd ((if b then serveStaticFile (turn_fs w) req filePath
                              else mret None) s))) as Hserve.
  { intros [] s; [apply rtc_once, step_static | apply rtc_refl]. }
  pose proof (Hserve (JsString.startsWith "/assets/" (url req)) st) as Hfirst.
  set (asset := (if JsString.startsWith "/assets/" (url req)
                 then serveStaticFile (turn_fs w) req filePath else mret None) st) in *.
  pose proof (Hserve (negb (String.eqb (url req) "/")
                      && negb (JsString.includes "?" (url req))
                      && JsString.has_extension (url req)) (snd asset)) as Hsecond.
  set (static := (if negb (String.eqb (url req) "/")
                     && negb (JsString.includes "?" (url req))
                     && JsString.has_extension (url req)
                  then serveStaticFile (turn_fs w) req filePath else mret None)
                   (snd asset)) in *.
  destruct (fst asset); [exact Hfirst|].
  destruct (fst static); [now transitivity (snd asset)|].
  transitivity (snd asset); [exact Hfirst|]. transitivity (snd static); [exact Hsecond|].
  apply renderRoute_steps.
Qed.

(** A url with an extension is none of the four fixed routes. *)
Lemma extension_not_a_fixed_route (u : string) :
  JsString.has_extension u = true ->
  String.eqb u "/themas" = false /\ String.eqb u "/cache/clear" = false
  /\ String.eqb u "/cache/stats" = false /\ String.eqb u "/set-thema" = false
  /\ String.eqb u "/" = false.
Proof.
  intros Hext. repeat split; apply String.eqb_neq; intros ->; discriminate Hext.
Qed.

Lemma query_not_a_fixed_route (u : string) :
  JsString.includes "?" u = true ->
  String.eqb u "/themas" = false /\ String.eqb u "/cache/clear" = false
  /\ String.eqb u "/cache/stats" = false /\ String.eqb u "/set-thema" = false.
Proof.
  intros Hq. repeat split; apply String.eqb_neq; intros ->; discriminate Hq.
Qed.

End ListenerFacts.

(** X22: whatever the request and whatever the world answers, one turn of
    the listener takes a state of a started server to a state of a started
    server; so after any sequence of requests every entry of the page cache
    still holds the document and its two compressions, and every cached
    file its digest as tag. *)
Theorem X22_listener_keeps_the_invariants `{Zlib} `{Platform} `{Paths} (env : Env)
    (w : Turn) (req : Request) (st : Server) :
  reachable st ->
  let st' := snd (handleRequest env w req st) in
  reachable st'
  /\ (forall k e, pageCache st' !! k = Some e -> entry_complete e)
  /\ (forall p ce, fileCache st' !! p = Some ce -> tagged ce).
Proof.
  intros Hreach. cbv zeta.
  assert (reachable (snd (handleRequest env w req st))) as Hafter.
  { destruct Hreach as (fs & env0 & themesDir & st0 & Hplain & Hboot & Hrun).
    exists fs, env0, themesDir, st0. split; [exact Hplain|]. split; [exact Hboot|].
    transitivity st; [exact Hrun | apply handleRequest_steps]. }
  split; [exact Hafter|].
  destruct (reachable_invariant _ Hafter) as (_ & Hpages & Hfiles).
  split; [|exact Hfiles].
  intros k e Hk. destruct (Hpages k e Hk) as (template & now & ->).
  apply makeEntry_complete.
Qed.

(** A phone asks the started sample server for [/about]. *)
Lemma X22_listener_keeps_the_invariants_witness :
  reachable (H := Sample.zlib) (H0 := Sample.platform)
    (snd (handleRequest (H := Sample.zlib) (H0 := Sample.platform) (H1 := Demo.paths)
            Sample.env (Demo.turn 0 "<html>about</html>") (Demo.phone "/about")
            Sample.started)).
Proof.
  exact (proj1 (X22_listener_keeps_the_invariants (H := Sample.zlib) (H0 := Sample.platform)
                  (H1 := Demo.paths) Sample.env (Demo.turn 0 "<html>about</html>")
                  (Demo.phone "/about") Sample.started sample_started_reachable)).
Defined.

(** X23: the four fixed routes are guarded by url and method together. A
    request for one of their urls with another method is not rejected: it
    passes the static checks untouched and is handled as a page, rendered
    and cached like any other route, without any token. *)
Theorem X23_other_method_is_a_page `{Zlib} `{Platform} `{Paths} (env : Env) (w : Turn)
    (req : Request) (st : Server) :
  (url req = "/themas" /\ method req <> "GET")
  \/ (url req = "/cache/clear" /\ method req <> "POST")
  \/ (url req = "/cache/stats" /\ method req <> "GET")
  \/ (url req = "/set-thema" /\ method req <> "POST") ->
  handleRequest env w req st = renderRoute w req st
  /\ (turn_loads w = true -> turn_middleware w = None ->
      handleRequest env w req st
      = answered (cacheOrRender (turn_sweep w) (turn_lookup w) (turn_store w)
                    (turn_rendered w) req) st).
Proof.
  intros Hroute.
  assert (handleRequest env w req st = renderRoute w req st) as Heq.
  { unfold handleRequest.
    destruct Hroute as [[Hu Hm]|[[Hu Hm]|[[Hu Hm]|[Hu Hm]]]];
      apply String.eqb_neq in Hm; rewrite Hu, Hm; reflexivity. }
  split; [exact Heq|]. intros Hloads Hpass. rewrite Heq. unfold renderRoute.
  now rewrite Hloads, Hpass.
Qed.

(** An anonymous [GET /cache/clear] on the sample server. *)
Lemma X23_other_method_is_a_page_witness :
  let run := handleRequest (H := Sample.zlib) (H0 := Sample.platform) (H1 := Demo.paths)
               Sample.env (Demo.turn 0 "<html>page</html>")
               (Sample.request "GET" "/cache/clear") Sample.started in
  (statusCode <$> fst run) = Some 200%Z
  /\ is_Some (pageCache (snd run) !! "/cache/clear:desktop").
Proof.
  cbv zeta.
  destruct (X23_other_method_is_a_page (H := Sample.zlib) (H0 := Sample.platform)
              (H1 := Demo.paths) Sample.env (Demo.turn 0 "<html>page</html>")
              (Sample.request "GET" "/cache/clear") Sample.started) as (_ & Hpage).
  - right. left. split; [reflexivity | discriminate].
  - rewrite (Hpage eq_refl eq_refl). split; [reflexivity|].
    eexists. vm_compute. reflexivity.
Defined.

(** X24: a url that ends in an extension and names no regular file under
    the build directory is answered 404 "Not found" once the middleware
    stack passes it on: it is never rendered, nothing is cached for it, and
    the server state is as before. *)
Theorem X24_missing_file_is_not_found `{Zlib} `{Platform} `{Paths} (env : Env) (w : Turn)
    (req : Request) (st : Server) (base ext : string) :
  url req = base +:+ String "." ext ->
  ext <> "" ->
  JsString.all_word ext = true ->
  (forall m content, turn_fs w (resolve_dist ("." +:+ url req)) <> Some (FsFile m content)) ->
  turn_loads w = true ->
  turn_middleware w = None ->
  handleRequest env w req st
  = (Some {| statusCode := 404; resHeaders := [];
             resBody := Payload (Text ("Not found: " +:+ url req)) |}, st).
Proof.
  intros Hurl Hne Hword Hnofile Hloads Hpass.
  pose proof (has_extension_suffix base ext Hne Hword) as Hext. rewrite <- Hurl in Hext.
  destruct (extension_not_a_fixed_route _ Hext) as (H1' & H2' & H3' & H4' & _).
  rewrite (handleRequest_tail env w req st); try (now rewrite ?H1', ?H2', ?H3', ?H4').
  cbv zeta.
  assert (forall (b : bool) s,
            (if b then serveStaticFile (turn_fs w) req (resolve_dist ("." +:+ url req))
             else mret None) s = (None, s)) as Hdecline.
  { intros [] s; [apply (serveStaticFile_not_a_file _ _ _ _ Hnofile) | reflexivity]. }
  rewrite !Hdecline. cbn [fst snd].
  assert (renderRoute w req st
          = (Some {| statusCode := 404; resHeaders := [];
                     resBody := Payload (Text ("Not found: " +:+ url req)) |}, st)) as Hrender.
  { unfold renderRoute. rewrite Hloads, Hpass. cbn [negb]. rewrite answered_run.
    unfold cacheOrRender. now rewrite Hext. }
  exact Hrender.
Qed.

(** A script that is not in the build of the sample server. *)
Lemma X24_missing_file_is_not_found_witness :
  handleRequest (H := Sample.zlib) (H0 := Sample.platform) (H1 := Demo.paths)
    Sample.env (Demo.turn 9 "<html>x</html>") (Sample.request "GET" "/assets/app.js")
    Sample.warmed
  = (Some {| statusCode := 404; resHeaders := [];
             resBody := Payload (Text "Not found: /assets/app.js") |}, Sample.warmed).
Proof.
  apply (X24_missing_file_is_not_found (H := Sample.zlib) (H0 := Sample.platform)
           (H1 := Demo.paths) Sample.env (Demo.turn 9 "<html>x</html>")
           (Sample.request "GET" "/assets/app.js") Sample.warmed "/assets/app" "js");
    try reflexivity; discriminate.
Defined.

(** X25: a file comes before the page. A url with an extension and without
    a question mark, whose file under the build directory can be read, is
    answered by [serveStaticFile] alone: the renderer is not consulted and
    the page cache, not even swept, stays as it was. *)
Theorem X25_file_comes_before_page `{Zlib} `{Platform} `{Paths} (env : Env) (w : Turn)
    (req : Request) (st : Server) (base ext : string) (m : Z) (bytes : Buffer) :
  url req = base +:+ String "." ext ->
  ext <> "" ->
  JsString.all_word ext = true ->
  JsString.includes "?" (url req) = false ->
  turn_fs w (resolve_dist ("." +:+ url req)) = Some (FsFile m (Some bytes)) ->
  let run := handleRequest env w req st in
  run = serveStaticFile (turn_fs w) req (resolve_dist ("." +:+ url req)) st
  /\ is_Some (fst run)
  /\ pageCache (snd run) = pageCache st.
Proof.
  intros Hurl Hne Hword Hquery Hfile. cbv zeta.
  pose proof (has_extension_suffix base ext Hne Hword) as Hext. rewrite <- Hurl in Hext.
  destruct (extension_not_a_fixed_route _ Hext) as (H1' & H2' & H3' & H4' & Hroot).
  destruct (serveStaticFile_first (turn_fs w) req _ st m bytes Hfile) as (ce & _ & _ & Hres).
  assert (handleRequest env w req st
          = serveStaticFile (turn_fs w) req (resolve_dist ("." +:+ url req)) st) as Heq.
  { rewrite (handleRequest_tail env w req st); try (now rewrite ?H1', ?H2', ?H3', ?H4').
    cbv zeta. rewrite Hroot, Hquery, Hext. cbn [andb negb].
    destruct (JsString.startsWith "/assets/" (url req)); cbn [mret handler_ret ret fst snd];
      destruct (serveStaticFile (turn_fs w) req (resolve_dist ("." +:+ url req)) st)
        as [served st1]; cbn [fst snd] in *; now rewrite Hres. }
  rewrite Heq. split; [reflexivity|]. split; [rewrite Hres; eauto|].
  apply serveStaticFile_pageCache.
Qed.

(** The stylesheet of the sample server, asked for 40 minutes after the home
    page was rendered. *)
Lemma X25_file_comes_before_page_witness :
  let run := handleRequest (H := Sample.zlib) (H0 := Sample.platform) (H1 := Demo.paths)
               Sample.env (Demo.turn 2400000 "<html>x</html>")
               (Sample.request "GET" "/assets/app.css") Sample.warmed in
  is_Some (fst run) /\ pageCache (snd run) = pageCache Sample.warmed.
Proof.
  cbv zeta.
  destruct (X25_file_comes_before_page (H := Sample.zlib) (H0 := Sample.platform)
              (H1 := Demo.paths) Sample.env (Demo.turn 2400000 "<html>x</html>")
              (Sample.request "GET" "/assets/app.css") Sample.warmed "/assets/app" "css"
              2000 (list_byte_of_string "body{}")) as (_ & Hsome & Hcache);
    try reflexivity; [discriminate|].
  split; [exact Hsome | exact Hcache].
Defined.

(** X26: a question mark keeps a url away from the disk. Outside of
    [/assets/], a url with a query string is never looked up as a file,
    even when it names one: it goes to the page route, where it is rendered
    and cached under the whole url, query included. *)
Theorem X26_query_string_skips_the_files `{Zlib} `{Platform} `{Paths} (env : Env)
    (w : Turn) (req : Request) (st : Server) :
  JsString.includes "?" (url req) = true ->
  JsString.startsWith "/assets/" (url req) = false ->
  handleRequest env w req st = renderRoute w req st
  /\ generateCacheKey (url req) (Some (or_empty (user_agent req)))
     = url req +:+ ":" +:+ isMobile (Some (or_empty (user_agent req))).
Proof.
  intros Hquery Hassets. split; [|reflexivity].
  destruct (query_not_a_fixed_route _ Hquery) as (H1' & H2' & H3' & H4').
  rewrite (handleRequest_tail env w req st); try (now rewrite ?H1', ?H2', ?H3', ?H4').
  cbv zeta. rewrite Hassets, Hquery. cbn [negb]. now rewrite andb_false_r.
Qed.

(** The stylesheet path of the sample build with a version parameter. *)
Lemma X26_query_string_skips_the_files_witness :
  let run := handleRequest (H := Sample.zlib) (H0 := Sample.platform) (H1 := Demo.paths)
               Sample.env (Demo.turn 0 "<html>page</html>")
               (Sample.request "GET" "/app.css?v=2") Sample.started in
  is_Some (pageCache (snd run) !! "/app.css?v=2:desktop").
Proof.
  cbv zeta.
  destruct (X26_query_string_skips_the_files (H := Sample.zlib) (H0 := Sample.platform)
              (H1 := Demo.paths) Sample.env (Demo.turn 0 "<html>page</html>")
              (Sample.request "GET" "/app.css?v=2") Sample.started eq_refl eq_refl)
    as (Hroute & _).
  rewrite Hroute. eexists. vm_compute. reflexivity.
Defined.

(** ** Statistics by age *)

Section StatsByAge.
Implicit Types (cache : gmap string PageCacheEntry) (now : Z).

(** The size of the part of the cache that passes a test is the count of
    that test over the listing. *)
Lemma size_filter_count (P : string * PageCacheEntry -> Prop)
    `{!forall kv, Decision (P kv)} (f : PageCacheEntry -> bool) cache :
  (forall k e, P (k, e) <-> f e = true) ->
  size (filter P cache) = count f (map_to_list cache).
Proof.
  intros HPf.
  rewrite <- length_map_to_list, <- count_all,
    (count_restricted f (fun _ => true) cache (filter P cache)).
  - apply count_ext. intros e. apply andb_true_r.
  - intros k. rewrite map_lookup_filter. destruct (cache !! k) as [e|]; [|reflexivity].
    cbn [mbind option_bind]. destruct (f e) eqn:Hf.
    + rewrite option_guard_True by now apply HPf. reflexivity.
    + rewrite option_guard_False; [reflexivity|]. rewrite HPf. congruence.
Qed.

Lemma is_expired_gt now (e : PageCacheEntry) :
  is_expired now e = true <-> (now - timestamp e > PAGE_CACHE_DURATION)%Z.
Proof.
  unfold is_expired. destruct (Z.gtb_spec (now - timestamp e) PAGE_CACHE_DURATION);
    split; intros; try discriminate; try reflexivity; lia.
Qed.

End StatsByAge.

(** C8: the statistics classify every entry by its age at the query, the
    clock reading minus the entry's timestamp, against the duration of 30
    minutes: [expired] is the number of entries whose age is above the
    duration, [valid] the number of entries whose age is at most the
    duration, [total] the number of entries, which is the sum of the two;
    neither [getCacheStats] nor [GET /cache/stats] changes the server
    state. *)
Theorem C8_stats_classify_and_preserve (env : Env) (req : Request) (now : Z) (st : Server) :
  let stats := fst (getCacheStats now st) in
  snd (getCacheStats now st) = st
  /\ snd (cacheStatsHandler env now req st) = st
  /\ total stats = size (pageCache st)
  /\ expired stats
     = size (filter (fun kv : string * PageCacheEntry =>
                       (now - timestamp (snd kv) > PAGE_CACHE_DURATION)%Z) (pageCache st))
  /\ valid stats
     = size (filter (fun kv : string * PageCacheEntry =>
                       (now - timestamp (snd kv) <= PAGE_CACHE_DURATION)%Z) (pageCache st))
  /\ (valid stats + expired stats = total stats)%nat
  /\ PAGE_CACHE_DURATION = (30 * 60 * 1000)%Z.
Proof.
  cbv zeta. unfold cacheStatsHandler, getCacheStats. run.
  rewrite fold_stats. cbn [fst snd total valid expired Nat.add].
  split; [reflexivity|]. split; [now destruct (negb (authorized env req))|].
  split; [reflexivity|]. split; [|split; [|split; [|reflexivity]]].
  - symmetry. apply size_filter_count. intros k e. cbn [snd]. symmetry. apply is_expired_gt.
  - symmetry. apply size_filter_count. intros k e. cbn [snd].
    pose proof (is_expired_gt now e) as Hgt.
    destruct (is_expired now e); cbn [negb]; split; intros Hx; try reflexivity;
      try discriminate Hx.
    + assert (now - timestamp e > PAGE_CACHE_DURATION)%Z by now apply Hgt. lia.
    + destruct (Z_le_gt_dec (now - timestamp e) PAGE_CACHE_DURATION) as [Hle|Habove];
        [exact Hle|]. apply Hgt in Habove. discriminate Habove.
  - rewrite count_partition. apply length_map_to_list.
Qed.

(** ** Compression negotiation *)

Section NegotiationFacts.
Context `{Zlib}.

Lemma includes_contains (word s : string) :
  JsString.includes word s = true <-> contains word s.
Proof.
  split.
  - apply includes_split.
  - intros (before & after & ->). apply includes_infix.
Qed.

Lemma includes_false (word s : string) :
  JsString.includes word s = false <-> ~ contains word s.
Proof.
  rewrite <- includes_contains. now destruct (JsString.includes word s).
Qed.

End NegotiationFacts.

(** C5 as stated fails: acceptance is not what the code tests. For
    "gzip, br;q=0" brotli is refused and gzip accepted, so the described
    choice is gzip, and the code compresses with brotli; for "GZIP" gzip is
    accepted and the code compresses nothing; for "abracadabra" nothing is
    accepted and the code compresses with brotli. *)
Lemma C5_choice_is_not_by_acceptance :
  Http.accepts "br" "gzip, br;q=0" = false
  /\ Http.accepts "gzip" "gzip, br;q=0" = true
  /\ Http.negotiate "gzip, br;q=0" = Some "gzip"
  /\ snd (compressHtml (H := Sample.zlib) "<p>hi</p>" (Some "gzip, br;q=0")) = Some "br"
  /\ snd (compressFile (H := Sample.zlib) [Byte.x61] (Some "gzip, br;q=0")) = Some "br"
  /\ snd (compressHtml (H := Sample.zlib) "<p>hi</p>" (Some "gzip, br;q=0"))
     <> Http.negotiate "gzip, br;q=0"
  /\ Http.negotiate "GZIP" = Some "gzip"
  /\ snd (compressHtml (H := Sample.zlib) "<p>hi</p>" (Some "GZIP")) = None
  /\ Http.negotiate "abracadabra" = None
  /\ snd (compressHtml (H := Sample.zlib) "<p>hi</p>" (Some "abracadabra")) = Some "br".
Proof. repeat split; try reflexivity. discriminate. Qed.

(** C5, amended: the choice is a function of the accepted-encodings value
    alone, made by searching the value for two words, with a fixed
    priority. If "br" occurs anywhere in the value the payload is
    compressed with brotli and marked "br"; otherwise, if "gzip" occurs
    anywhere, it is compressed with gzip and marked "gzip"; otherwise it is
    passed through with no encoding marked. The search regards the case of
    the letters and nothing else of the value; a missing value holds no
    word. The document and the file compressor choose alike. *)
Theorem C5_negotiation_by_substring `{Zlib} (html html' : string) (buffer : Buffer)
    (header : string) :
  (contains "br" header ->
     compressHtml html (Some header) = (Bytes (brotliCompressSync (Text html)), Some "br")
     /\ compressFile buffer (Some header) = (brotliCompressSync (Bytes buffer), Some "br"))
  /\ (~ contains "br" header -> contains "gzip" header ->
        compressHtml html (Some header) = (Bytes (gzipSync (Text html)), Some "gzip")
        /\ compressFile buffer (Some header) = (gzipSync (Bytes buffer), Some "gzip"))
  /\ (~ contains "br" header -> ~ contains "gzip" header ->
        compressHtml html (Some header) = (Text html, None)
        /\ compressFile buffer (Some header) = (buffer, None))
  /\ (snd (compressHtml html (Some header)) = Some "br" <-> contains "br" header)
  /\ (snd (compressHtml html (Some header)) = Some "gzip"
      <-> ~ contains "br" header /\ contains "gzip" header)
  /\ (snd (compressHtml html (Some header)) = None
      <-> ~ contains "br" header /\ ~ contains "gzip" header)
  /\ snd (compressHtml html (Some header)) = snd (compressHtml html' (Some header))
  /\ snd (compressHtml html (Some header)) = snd (compressFile buffer (Some header))
  /\ compressHtml html None = (Text html, None)
  /\ compressFile buffer None = (buffer, None).
Proof.
  rewrite <- !includes_false, <- !includes_contains.
  unfold compressHtml, compressFile.
  change (or_empty (Some header)) with header.
  destruct (JsString.includes "br" header), (JsString.includes "gzip" header);
    cbn [fst snd];
    repeat match goal with
           | |- _ /\ _ => split
           | |- _ <-> _ => split
           | |- _ -> _ => intro
           | H : _ /\ _ |- _ => destruct H
           end;
    try reflexivity; try discriminate; try congruence.
Qed.

(** Three values, one for each choice, and one that refuses brotli. *)
Lemma C5_negotiation_by_substring_witness :
  compressHtml (H := Sample.zlib) "<p>hi</p>" (Some "gzip, deflate, br")
  = (Bytes (brotliCompressSync (Zlib := Sample.zlib) (Text "<p>hi</p>")), Some "br")
  /\ compressFile (H := Sample.zlib) [Byte.x61] (Some "gzip, deflate")
     = (gzipSync (Zlib := Sample.zlib) (Bytes [Byte.x61]), Some "gzip")
  /\ compressHtml (H := Sample.zlib) "<p>hi</p>" (Some "identity") = (Text "<p>hi</p>", None)
  /\ compressHtml (H := Sample.zlib) "<p>hi</p>" (Some "gzip, br;q=0")
     = (Bytes (brotliCompressSync (Zlib := Sample.zlib) (Text "<p>hi</p>")), Some "br").
Proof.
  pose proof (C5_negotiation_by_substring (H := Sample.zlib) "<p>hi</p>" "" [Byte.x61]
                "gzip, deflate, br") as (Hbr & _).
  pose proof (C5_negotiation_by_substring (H := Sample.zlib) "<p>hi</p>" "" [Byte.x61]
                "gzip, deflate") as (_ & Hgzip & _).
  pose proof (C5_negotiation_by_substring (H := Sample.zlib) "<p>hi</p>" "" [Byte.x61]
                "identity") as (_ & _ & Hnone & _).
  pose proof (C5_negotiation_by_substring (H := Sample.zlib) "<p>hi</p>" "" [Byte.x61]
                "gzip, br;q=0") as (Hrefused & _).
  split; [apply Hbr; now exists "gzip, deflate, ", ""|].
  split; [apply Hgzip; [apply includes_false; reflexivity | now exists "", ", deflate"]|].
  split; [apply Hnone; apply includes_false; reflexivity|].
  apply Hrefused. now exists "gzip, ", ";q=0".
Defined.
